(** * github-changelog: a shallow embedding of [changelog/__init__.py]

    The module resolves two points of a repository's history through the
    GitHub API and lists the pull requests merged between them.  The
    embedding follows the Python source function by function:

    - decoded JSON is the type [json]; Python's subscription, [in], [.get]
      and iteration on such values are written out with the exceptions
      they raise ([KeyError], [TypeError], [IndexError], ...);
    - [requests.get] and [requests.post] are calls to a [remote], a function
      of the requests made so far and of the current request, so that every
      deterministic sequence of responses is a [remote]; the requests issued
      are recorded in a history threaded through the monad [M];
    - the [while] loop of [GithubAPI.get_tag] runs on fuel, and a run that
      exhausts it has the outcome [OutOfFuel];
    - the [datetime] library and [repr] of [str] are an interface
      ([PyRuntime]); [GithubClock] implements it for the timestamps GitHub
      sends.

    JSON numbers are integers here (a number with a fraction or an exponent
    decodes to a Python float, which has no counterpart below), and strings
    are sequences of one-byte characters. *)

From Stdlib Require Import String Ascii List ZArith Bool Lia DecimalString.
From Stdlib Require Import Permutation Sorted.
Import ListNotations.
Open Scope string_scope.
Open Scope list_scope.

Set Warnings "-register-all".

Infix "+++" := String.append (right associativity, at level 60).

(** ** Strings *)

(** The double quote and the line feed, which no literal can hold. *)
Definition dquote : string := String "034"%char EmptyString.
Definition nl : string := String "010"%char EmptyString.

(** [str(n)] for a Python [int]. *)
Definition str_of_Z (z : Z) : string := NilZero.string_of_int (Z.to_int z).

(** [needle in hay] for two [str]. *)
Fixpoint contains (needle hay : string) : bool :=
  prefix needle hay ||
  match hay with
  | EmptyString => false
  | String _ hay' => contains needle hay'
  end.

(** [s.replace(old, new)] where [old] is one character long. *)
Fixpoint replace_char (old : ascii) (new : string) (s : string) : string :=
  match s with
  | EmptyString => EmptyString
  | String c s' =>
      if Ascii.eqb c old then new +++ replace_char old new s'
      else String c (replace_char old new s')
  end.

(** The characters of a [str], as iterating over it yields them. *)
Fixpoint chars (s : string) : list string :=
  match s with
  | EmptyString => []
  | String c s' => String c EmptyString :: chars s'
  end.

(** ** Decoded JSON *)

(** What [request.json()] returns.  A dict is the list of its items in
    insertion order; a key is looked up at its first binding. *)
Inductive json : Type :=
| JNull
| JBool (b : bool)
| JInt (z : Z)
| JStr (s : string)
| JList (l : list json)
| JDict (d : list (string * json)).

Fixpoint dict_get (k : string) (d : list (string * json)) : option json :=
  match d with
  | [] => None
  | (k', v) :: d' => if String.eqb k k' then Some v else dict_get k d'
  end.

(** [v == s] for a [str] literal [s]. *)
Definition eq_str (v : json) (s : string) : bool :=
  match v with
  | JStr s' => String.eqb s' s
  | _ => false
  end.

(** ** Exceptions and outcomes *)

Inductive exn : Type :=
| GitHubError (msg : string)   (* the module's own exception *)
| KeyError (key : json)
| IndexError
| TypeError
| AttributeError
| ValueError
| JSONDecodeError              (* [request.json()] on a body that is no JSON *)
| RequestException.            (* [requests] got no response *)

(** How a call ends.  [OutOfFuel]: the [while] loop of [get_tag] was cut
    short.  [Unmodelled]: [sorted] was given keys that are not all [int];
    what Python does with them is outside the embedding, and no statement
    below speaks about such a run. *)
Inductive outcome (A : Type) : Type :=
| Return (a : A)
| Raise (e : exn)
| OutOfFuel
| Unmodelled.

Arguments Return {A} a.
Arguments Raise {A} e.
Arguments OutOfFuel {A}.
Arguments Unmodelled {A}.

Definition obind {A B : Type} (o : outcome A) (k : A -> outcome B) : outcome B :=
  match o with
  | Return a => k a
  | Raise e => Raise e
  | OutOfFuel => OutOfFuel
  | Unmodelled => Unmodelled
  end.

Notation "'let*' x ':=' c 'in' k" := (obind c (fun x => k))
  (at level 10, x name, c at level 100, k at level 200).

(** [mapM]: a list comprehension whose element expression may raise. *)
Fixpoint omap {A B : Type} (f : A -> outcome B) (l : list A) : outcome (list B) :=
  match l with
  | [] => Return []
  | x :: l' => let* y := f x in let* ys := omap f l' in Return (y :: ys)
  end.

(** The module's one defined error kind. *)
Definition is_GitHubError (e : exn) : bool :=
  match e with
  | GitHubError _ => true
  | _ => false
  end.

(** The exceptions of a failed subscription. *)
Definition is_lookup_error (e : exn) : bool :=
  match e with
  | KeyError _ | IndexError | TypeError => true
  | _ => false
  end.

(** ** Python's operations on decoded JSON *)

(** [v[k]] for a [str] key: only a dict can be subscripted by one. *)
Definition getitem (v : json) (k : string) : outcome json :=
  match v with
  | JDict d =>
      match dict_get k d with
      | Some x => Return x
      | None => Raise (KeyError (JStr k))
      end
  | _ => Raise TypeError
  end.

(** [v[0]]. *)
Definition getitem0 (v : json) : outcome json :=
  match v with
  | JList (x :: _) => Return x
  | JList [] => Raise IndexError
  | JStr (String c _) => Return (JStr (String c EmptyString))
  | JStr EmptyString => Raise IndexError
  | JDict _ => Raise (KeyError (JInt 0))
  | _ => Raise TypeError
  end.

(** [k in v] for a [str] literal [k]. *)
Definition py_in (k : string) (v : json) : outcome bool :=
  match v with
  | JDict d => Return (match dict_get k d with Some _ => true | None => false end)
  | JList l => Return (existsb (fun x => eq_str x k) l)
  | JStr s => Return (contains k s)
  | _ => Raise TypeError
  end.

(** [v.get(k, default)]: a method of dicts alone. *)
Definition py_get (v : json) (k : string) (default : json) : outcome json :=
  match v with
  | JDict d =>
      Return (match dict_get k d with Some x => x | None => default end)
  | _ => Raise AttributeError
  end.

(** [for x in v]: the elements of a list, the keys of a dict, the characters
    of a str. *)
Definition py_iter (v : json) : outcome (list json) :=
  match v with
  | JList l => Return l
  | JDict d => Return (map (fun kv => JStr (fst kv)) d)
  | JStr s => Return (map JStr (chars s))
  | _ => Raise TypeError
  end.

(** ** The run-time library *)

(** [datetime.fromisoformat] ([None]: it raises [ValueError]),
    [datetime.isoformat], and [repr] of a [datetime] and of a [str]. *)
Class PyRuntime : Type := {
  pydatetime : Type;
  fromisoformat : string -> option pydatetime;
  isoformat : pydatetime -> string;
  repr_datetime : pydatetime -> string;
  repr_str : string -> string
}.

(** What an f-string ([py_str]) and a dataclass's [__repr__] ([py_repr])
    make of a value. *)
Class Format (A : Type) : Type := {
  py_str : A -> string;
  py_repr : A -> string
}.

Section Formatting.
Context {py : PyRuntime}.

Fixpoint json_repr (v : json) : string :=
  match v with
  | JNull => "None"
  | JBool true => "True"
  | JBool false => "False"
  | JInt z => str_of_Z z
  | JStr s => repr_str s
  | JList l => "[" +++ String.concat ", " (map json_repr l) +++ "]"
  | JDict d =>
      "{" +++ String.concat ", "
                (map (fun kv => let '(k, x) := kv in
                                repr_str k +++ ": " +++ json_repr x) d)
          +++ "}"
  end.

Definition json_str (v : json) : string :=
  match v with
  | JStr s => s
  | _ => json_repr v
  end.

#[global] Instance Format_str : Format string :=
  {| py_str := fun s => s; py_repr := repr_str |}.

#[global] Instance Format_int : Format Z :=
  {| py_str := str_of_Z; py_repr := str_of_Z |}.

#[global] Instance Format_json : Format json :=
  {| py_str := json_str; py_repr := json_repr |}.

(** [parse_datetime_string]: [.replace] is a method of [str] alone. *)
Definition parse_datetime_string (datetime_str : json) : outcome pydatetime :=
  match datetime_str with
  | JStr s =>
      match fromisoformat (replace_char "Z"%char "+00:00" s) with
      | Some d => Return d
      | None => Raise ValueError
      end
  | _ => Raise AttributeError
  end.

End Formatting.

(** ** The data classes *)

Module Authorization.

Record t : Type := { token : string }.

Definition token_auth (self : t) : list (string * string) :=
  [("Authorization", "token " +++ token self)].

Definition bearer_auth (self : t) : list (string * string) :=
  [("Authorization", "Bearer " +++ token self)].

End Authorization.

Module GitHubConfig.

Record t : Type := { api_url : string; authorization : Authorization.t }.

End GitHubConfig.

Module Commit.
Section WithRuntime.
Context {py : PyRuntime}.

(** The fields hold what the response held: a dataclass does not check its
    annotations. *)
Record t : Type := {
  sha : json;
  datetime : pydatetime;
  message : json;
  author : json
}.

(** The [__repr__] that [@dataclass] generates. *)
Definition repr (c : t) : string :=
  "Commit(sha=" +++ py_repr (sha c)
    +++ ", datetime=" +++ repr_datetime (datetime c)
    +++ ", message=" +++ py_repr (message c)
    +++ ", author=" +++ py_repr (author c) +++ ")".

#[global] Instance Format_t : Format t := {| py_str := repr; py_repr := repr |}.

Definition init_from_api (commit_json : json) : outcome t :=
  let* c := getitem commit_json "commit" in
  let* a := getitem c "author" in
  let* datetime_str := getitem a "date" in
  let* sha_ := getitem commit_json "sha" in
  let* datetime_ := parse_datetime_string datetime_str in
  let* c' := getitem commit_json "commit" in
  let* message_ := getitem c' "message" in
  let* a' := getitem commit_json "author" in
  let* login := getitem a' "login" in
  Return {| sha := sha_; datetime := datetime_;
            message := message_; author := login |}.

End WithRuntime.
End Commit.

Module Tag.
Section WithRuntime.
Context {py : PyRuntime}.

(** [name] is annotated [str]; [fetch_changes] also builds a [Tag] whose
    name is itself a [Tag], hence the parameter. *)
Record t (N : Type) : Type := { name : N; commit : Commit.t }.

Arguments name {N} _.
Arguments commit {N} _.

Definition repr {N : Type} `{Format N} (x : t N) : string :=
  "Tag(name=" +++ py_repr (name x)
    +++ ", commit=" +++ Commit.repr (commit x) +++ ")".

#[global] Instance Format_t {N : Type} `{Format N} : Format (t N) :=
  {| py_str := repr; py_repr := repr |}.

End WithRuntime.

Arguments Build_t {py N} name commit.
Arguments name {py N} _.
Arguments commit {py N} _.

End Tag.

Module PullRequest.

Record t : Type := { number : json; title : json; author : json }.

End PullRequest.

(** ** The remote and the monad of API calls *)

Inductive request : Type :=
| GET (url : string) (params : option (list (string * string)))
      (headers : list (string * string))
| POST (url : string) (json_body : json) (headers : list (string * string)).

Record response : Type := { status_code : Z; body : option json }.

(** The requests made so far, the latest first. *)
Definition history : Type := list request.

(** The forge: what it answers to a request after the requests before it;
    [None] when [requests] raises instead of returning a response. *)
Definition remote : Type := history -> request -> option response.

Definition M (A : Type) : Type := history -> outcome A * history.

Definition ret {A : Type} (a : A) : M A := fun h => (Return a, h).

Definition raise {A : Type} (e : exn) : M A := fun h => (Raise e, h).

Definition lift {A : Type} (o : outcome A) : M A := fun h => (o, h).

Definition bind {A B : Type} (m : M A) (k : A -> M B) : M B :=
  fun h =>
    match m h with
    | (Return a, h') => k a h'
    | (Raise e, h') => (Raise e, h')
    | (OutOfFuel, h') => (OutOfFuel, h')
    | (Unmodelled, h') => (Unmodelled, h')
    end.

Notation "x <- c ;; k" := (bind c (fun x => k))
  (at level 61, c at next level, right associativity).

(** [requests.get] and [requests.post]: the request is recorded and the
    remote answers it. *)
Definition send (net : remote) (r : request) : M response :=
  fun h =>
    match net h r with
    | Some resp => (Return resp, r :: h)
    | None => (Raise RequestException, r :: h)
    end.

(** The requests a call issued, in the order it issued them, given the
    history before and after it. *)
Definition issued (before after : history) (rs : list request) : Prop :=
  after = rev rs ++ before.

(** ** [sorted(..., key=attrgetter("number"))] *)

(** Python's [sorted] is stable, and the result of a stable sort is
    determined by the keys; it is computed here by stable insertion on the
    list decorated with its keys. *)
Section StableSort.
Context {A : Type}.

Fixpoint insert_by_key (x : Z * A) (l : list (Z * A)) : list (Z * A) :=
  match l with
  | [] => [x]
  | y :: l' =>
      if (fst y <? fst x)%Z then y :: insert_by_key x l' else x :: y :: l'
  end.

Definition stable_sort (l : list (Z * A)) : list (Z * A) :=
  fold_right insert_by_key [] l.

End StableSort.

Definition int_key (pr : PullRequest.t) : option (Z * PullRequest.t) :=
  match PullRequest.number pr with
  | JInt z => Some (z, pr)
  | _ => None
  end.

(** The list decorated with its keys, when all of them are [int]. *)
Fixpoint decorate (prs : list PullRequest.t) : option (list (Z * PullRequest.t)) :=
  match prs with
  | [] => Some []
  | pr :: prs' =>
      match int_key pr, decorate prs' with
      | Some x, Some l => Some (x :: l)
      | _, _ => None
      end
  end.

Definition sorted_by_number (prs : list PullRequest.t) : outcome (list PullRequest.t) :=
  match decorate prs with
  | Some l => Return (map snd (stable_sort l))
  | None => Unmodelled
  end.

(** ** The API client *)

Module GithubAPI.

Record t : Type := {
  config : GitHubConfig.t;
  owner : string;
  repo : string
}.

Definition repo_url (self : t) : string :=
  GitHubConfig.api_url (config self) +++ "/repos/" +++ owner self
    +++ "/" +++ repo self.

Definition commits_url (self : t) : string := repo_url self +++ "/commits".

Definition tags_url (self : t) : string := repo_url self +++ "/tags".

Definition get_commit_url {S : Type} `{Format S} (self : t) (sha : S) : string :=
  commits_url self +++ "/" +++ py_str sha.

Definition tag_ref_url {N : Type} `{Format N} (self : t) (tag : N) : string :=
  repo_url self +++ "/git/refs/tags/" +++ py_str tag.

Definition query_failed {X : Type} `{Format X} (status : Z) (what : X) : exn :=
  GitHubError ("Query failed to run by returning code of "
                 +++ str_of_Z status +++ nl +++ nl +++ py_str what).

(** The search document, the query spliced in for [%s]. *)
Definition graphql_search (merged_query : string) : string :=
  nl +++ "            {"
  +++ nl +++ "              search(first: 100, query: " +++ dquote
  +++ merged_query +++ dquote +++ ", type: ISSUE) {"
  +++ nl +++ "                nodes {"
  +++ nl +++ "                  ... on PullRequest {"
  +++ nl +++ "                    title"
  +++ nl +++ "                    number"
  +++ nl +++ "                    author { login }"
  +++ nl +++ "                  }"
  +++ nl +++ "                }"
  +++ nl +++ "              }"
  +++ nl +++ "            }"
  +++ nl +++ "            ".

(** [PullRequest(number=pr["number"], title=pr["title"],
    author=pr["author"]["login"])]. *)
Definition pull_request_of (pr : json) : outcome PullRequest.t :=
  let* number_ := getitem pr "number" in
  let* title_ := getitem pr "title" in
  let* a := getitem pr "author" in
  let* login := getitem a "login" in
  Return {| PullRequest.number := number_; PullRequest.title := title_;
            PullRequest.author := login |}.

(** The condition of the loop of [get_tag]:
    ["object" not in tag_json or tag_json["object"]["type"] != "commit"]. *)
Definition not_yet_commit (tag_json : json) : outcome bool :=
  let* has := py_in "object" tag_json in
  if negb has then Return true
  else
    let* o := getitem tag_json "object" in
    let* ty := getitem o "type" in
    Return (negb (eq_str ty "commit")).

Section Calls.
Context {py : PyRuntime}.
Variable net : remote.

Definition compare_commits_url (self : t) (first_commit last_commit : Commit.t) : string :=
  repo_url self +++ "/compare/" +++ py_str (Commit.sha first_commit)
    +++ "..." +++ py_str (Commit.sha last_commit).

Definition graphql_query (self : t) (query : string) : M json :=
  request <- send net (POST (GitHubConfig.api_url (config self) +++ "/graphql")
                            (JDict [("query", JStr query)])
                            (Authorization.bearer_auth
                               (GitHubConfig.authorization (config self)))) ;;
  if (status_code request =? 200)%Z then
    match body request with
    | Some j => ret j
    | None => raise JSONDecodeError
    end
  else raise (query_failed (status_code request) query).

(** [url] reaches [requests.get] and the message of the error, and both
    format it with [str]. *)
Definition api_query {U : Type} `{Format U} (self : t) (url : U)
    (params : option (list (string * string))) : M json :=
  request <- send net (GET (py_str url) params
                           (Authorization.token_auth
                              (GitHubConfig.authorization (config self)))) ;;
  if (status_code request =? 200)%Z then
    match body request with
    | Some j => ret j
    | None => raise JSONDecodeError
    end
  else raise (query_failed (status_code request) url).

(** The [while] loop of [get_tag], one iteration per unit of fuel. *)
Fixpoint get_tag_loop (fuel : nat) (self : t) (tag_url tag_json : json) : M json :=
  again <- lift (not_yet_commit tag_json) ;;
  if again : bool then
    match fuel with
    | O => lift OutOfFuel
    | S fuel' =>
        tag_json' <- api_query self tag_url None ;;
        o <- lift (getitem tag_json' "object") ;;
        ty <- lift (getitem o "type") ;;
        if eq_str ty "tag" then
          o' <- lift (getitem tag_json' "object") ;;
          tag_url' <- lift (getitem o' "url") ;;
          get_tag_loop fuel' self tag_url' tag_json'
        else get_tag_loop fuel' self tag_url tag_json'
    end
  else ret tag_json.

Definition get_tag {N : Type} `{Format N} (fuel : nat) (self : t) (name : N) : M (Tag.t N) :=
  let tag_url := tag_ref_url self name in
  tag_json <- get_tag_loop fuel self (JStr tag_url) (JDict []) ;;
  o <- lift (getitem tag_json "object") ;;
  sha <- lift (getitem o "sha") ;;
  commit_json <- api_query self (get_commit_url self sha) None ;;
  commit <- lift (Commit.init_from_api commit_json) ;;
  ret (Tag.Build_t name commit).

Definition get_last_commit (self : t) (branch : string) : M Commit.t :=
  commits_json <- api_query self (commits_url self) (Some [("sha", branch)]) ;;
  c0 <- lift (getitem0 commits_json) ;;
  lift (Commit.init_from_api c0).

Definition get_latest_tag (fuel : nat) (self : t) : M (Tag.t json) :=
  tags_json <- api_query self (tags_url self) None ;;
  t0 <- lift (getitem0 tags_json) ;;
  name <- lift (getitem t0 "name") ;;
  get_tag fuel self name.

Definition get_commits_between (self : t) (first_commit last_commit : Commit.t)
    : M (list Commit.t) :=
  commits_json <- api_query self (compare_commits_url self first_commit last_commit) None ;;
  has <- lift (py_in "commits" commits_json) ;;
  if negb has then
    raise (GitHubError ("Commits not found between " +++ py_str first_commit
                          +++ " and " +++ py_str last_commit +++ "."))
  else
    cs <- lift (getitem commits_json "commits") ;;
    l <- lift (py_iter cs) ;;
    lift (omap Commit.init_from_api l).

Definition merged_query (self : t) (first_commit last_commit : Commit.t) : string :=
  let from_date := isoformat (Commit.datetime first_commit) in
  let to_date := isoformat (Commit.datetime last_commit) in
  "repo:" +++ owner self +++ "/" +++ repo self
    +++ " is:pr is:merged created:" +++ from_date +++ ".." +++ to_date.

Definition get_prs_merged_between_commits (self : t)
    (first_commit last_commit : Commit.t) : M (list PullRequest.t) :=
  pr_json_list <- graphql_query self
                    (graphql_search (merged_query self first_commit last_commit)) ;;
  data <- lift (getitem pr_json_list "data") ;;
  search <- lift (getitem data "search") ;;
  nodes <- lift (py_get search "nodes" (JList [])) ;;
  l <- lift (py_iter nodes) ;;
  prs <- lift (omap pull_request_of l) ;;
  lift (sorted_by_number prs).

End Calls.
End GithubAPI.

(** ** The module's functions *)

(** [str(None)] for the arguments that default to [None]. *)
#[global] Instance Format_option {py : PyRuntime} : Format (option string) :=
  {| py_str := fun o => match o with Some s => s | None => "None" end;
     py_repr := fun o => match o with Some s => repr_str s | None => "None" end |}.

Section Functions.
Context {py : PyRuntime}.
Variable net : remote.

(** When [previous_tag_name] is [None] the source rebinds it to the [Tag]
    that [get_latest_tag] returns and passes that [Tag] to [get_tag] as the
    name. *)
Definition fetch_changes (fuel : nat) (github_api : GithubAPI.t)
    (previous_tag_name current_tag_name : option string) (branch : string)
    : M (list PullRequest.t) :=
  previous_commit <-
    match previous_tag_name with
    | None =>
        latest <- GithubAPI.get_latest_tag net fuel github_api ;;
        previous_tag <- GithubAPI.get_tag net fuel github_api latest ;;
        ret (Tag.commit previous_tag)
    | Some name =>
        previous_tag <- GithubAPI.get_tag net fuel github_api name ;;
        ret (Tag.commit previous_tag)
    end ;;
  current_commit <-
    match current_tag_name with
    | Some name =>
        current_tag <- GithubAPI.get_tag net fuel github_api name ;;
        ret (Tag.commit current_tag)
    | None => GithubAPI.get_last_commit net github_api branch
    end ;;
  GithubAPI.get_prs_merged_between_commits net github_api
    previous_commit current_commit.

Definition bullet (pr : PullRequest.t) : string :=
  "- `#" +++ py_str (PullRequest.number pr) +++ "`_ "
    +++ py_str (PullRequest.title pr)
    +++ " (@" +++ py_str (PullRequest.author pr) +++ ")".

Definition link {B : Type} `{Format B} (base_url : B) (owner repo : string)
    (pr : PullRequest.t) : string :=
  ".. _#" +++ py_str (PullRequest.number pr) +++ ": " +++ py_str base_url
    +++ "/" +++ owner +++ "/" +++ repo +++ "/pull/"
    +++ py_str (PullRequest.number pr).

(** The [for] loop appends to both lists at each pull request. *)
Definition format_changes {B : Type} `{Format B} (base_url : B)
    (owner repo : string) (prs : list PullRequest.t) : list string :=
  let '(bullet_list, url_list) :=
    fold_left (fun acc pr =>
                 (fst acc ++ [bullet pr],
                  snd acc ++ [link base_url owner repo pr]))
              prs ([], []) in
  bullet_list ++ url_list.

(** [separator.join(lines)]: a backslash and an [n], or a line feed. *)
Definition join_lines (single_line : bool) (lines : list string) : string :=
  let separator := if single_line then "\n" else nl in
  String.concat separator lines.

Definition generate_changelog (fuel : nat) (owner repo : string)
    (previous_tag current_tag : option string) (single_line : bool)
    (github_base_url github_api_url github_token : option string) : M string :=
  let github_config :=
    {| GitHubConfig.api_url := py_str github_api_url;
       GitHubConfig.authorization :=
         {| Authorization.token := py_str github_token |} |} in
  let github_api :=
    {| GithubAPI.config := github_config;
       GithubAPI.owner := owner; GithubAPI.repo := repo |} in
  prs <- fetch_changes fuel github_api previous_tag current_tag "master" ;;
  let lines := format_changes github_base_url owner repo prs in
  ret (join_lines single_line lines).

End Functions.

(** ** The run-time library on GitHub's timestamps *)

(** GitHub sends [YYYY-MM-DDTHH:MM:SSZ], always in UTC.  [GithubClock] is
    the library restricted to that layout: [fromisoformat] refuses every
    other string (Python accepts some of them), and [repr] of a [str]
    escapes as Python does for ASCII text. *)
Module GithubClock.
Local Open Scope nat_scope.

Record timestamp : Type := {
  year : nat; month : nat; day : nat;
  hour : nat; minute : nat; second : nat
}.

Definition digit (c : ascii) : option nat :=
  let n := nat_of_ascii c in
  if (48 <=? n) && (n <=? 57) then Some (n - 48) else None.

Fixpoint number_from (acc : nat) (s : string) : option nat :=
  match s with
  | EmptyString => Some acc
  | String c s' =>
      match digit c with
      | Some d => number_from (10 * acc + d) s'
      | None => None
      end
  end.

Definition is_leap (y : nat) : bool :=
  ((y mod 4 =? 0) && negb (y mod 100 =? 0)) || (y mod 400 =? 0).

Definition days_in_month (y m : nat) : nat :=
  match m with
  | 2 => if is_leap y then 29 else 28
  | 4 | 6 | 9 | 11 => 30
  | _ => 31
  end.

Definition in_range (t : timestamp) : bool :=
  (1 <=? year t) && (1 <=? month t) && (month t <=? 12)
  && (1 <=? day t) && (day t <=? days_in_month (year t) (month t))
  && (hour t <? 24) && (minute t <? 60) && (second t <? 60).

Definition fromisoformat (s : string) : option timestamp :=
  if (String.length s =? 25)
     && String.eqb (substring 4 1 s) "-" && String.eqb (substring 7 1 s) "-"
     && String.eqb (substring 10 1 s) "T"
     && String.eqb (substring 13 1 s) ":" && String.eqb (substring 16 1 s) ":"
     && String.eqb (substring 19 6 s) "+00:00"
  then
    match number_from 0 (substring 0 4 s), number_from 0 (substring 5 2 s),
          number_from 0 (substring 8 2 s), number_from 0 (substring 11 2 s),
          number_from 0 (substring 14 2 s), number_from 0 (substring 17 2 s) with
    | Some y, Some mo, Some d, Some h, Some mi, Some se =>
        let t := {| year := y; month := mo; day := d;
                    hour := h; minute := mi; second := se |} in
        if in_range t then Some t else None
    | _, _, _, _, _, _ => None
    end
  else None.

Definition str_of_nat (n : nat) : string := str_of_Z (Z.of_nat n).

Definition pad2 (n : nat) : string :=
  if n <? 10 then "0" +++ str_of_nat n else str_of_nat n.

Definition pad4 (n : nat) : string :=
  if n <? 10 then "000" +++ str_of_nat n
  else if n <? 100 then "00" +++ str_of_nat n
  else if n <? 1000 then "0" +++ str_of_nat n
  else str_of_nat n.

Definition isoformat (t : timestamp) : string :=
  pad4 (year t) +++ "-" +++ pad2 (month t) +++ "-" +++ pad2 (day t)
    +++ "T" +++ pad2 (hour t) +++ ":" +++ pad2 (minute t) +++ ":"
    +++ pad2 (second t) +++ "+00:00".

(** [repr] leaves the seconds out when they are zero. *)
Definition repr_datetime (t : timestamp) : string :=
  "datetime.datetime(" +++ str_of_nat (year t) +++ ", "
    +++ str_of_nat (month t) +++ ", " +++ str_of_nat (day t) +++ ", "
    +++ str_of_nat (hour t) +++ ", " +++ str_of_nat (minute t)
    +++ (if second t =? 0 then "" else ", " +++ str_of_nat (second t))
    +++ ", tzinfo=datetime.timezone.utc)".

Definition hex_digit (n : nat) : string :=
  substring n 1 "0123456789abcdef".

Definition escape (quote : ascii) (c : ascii) : string :=
  let n := nat_of_ascii c in
  if Ascii.eqb c quote || Ascii.eqb c "\"%char then String "\"%char (String c "")
  else if n =? 9 then "\t"
  else if n =? 10 then "\n"
  else if n =? 13 then "\r"
  else if (n <? 32) || (n =? 127) then
    "\x" +++ hex_digit (n / 16) +++ hex_digit (n mod 16)
  else String c "".

Fixpoint escape_all (quote : ascii) (s : string) : string :=
  match s with
  | EmptyString => EmptyString
  | String c s' => escape quote c +++ escape_all quote s'
  end.

(** Single quotes, unless the text holds one and no double quote. *)
Definition repr_str (s : string) : string :=
  let quote :=
    if contains "'" s && negb (contains dquote s) then "034"%char else "'"%char in
  String quote (escape_all quote s) +++ String quote "".

Definition runtime : PyRuntime :=
  Build_PyRuntime timestamp fromisoformat isoformat repr_datetime repr_str.

End GithubClock.

(** ** A sample repository *)

(** [OWNER/REPO] on [api.github.com]: the lightweight tag [v1.0] on commit
    [abc], the annotated tag [v2.0] (tag object [t20]) on commit [def], the
    head [fed] of [master], and two merged pull requests. *)
Module Sample.

Definition api : GithubAPI.t :=
  {| GithubAPI.config :=
       {| GitHubConfig.api_url := "https://api.github.com";
          GitHubConfig.authorization := {| Authorization.token := "s3cr3t" |} |};
     GithubAPI.owner := "OWNER";
     GithubAPI.repo := "REPO" |}.

Definition ok (j : json) : option response :=
  Some {| status_code := 200; body := Some j |}.

Definition not_found : option response :=
  Some {| status_code := 404;
          body := Some (JDict [("message", JStr "Not Found")]) |}.

Definition ref_json (type sha url : string) : json :=
  JDict [("ref", JStr "refs/tags");
         ("object", JDict [("type", JStr type); ("sha", JStr sha);
                           ("url", JStr url)])].

Definition commit_json (sha date message : string) (author : json) : json :=
  JDict [("sha", JStr sha);
         ("commit", JDict [("author", JDict [("name", JStr "A. Author");
                                             ("date", JStr date)]);
                           ("message", JStr message)]);
         ("author", author)].

Definition login (name : string) : json := JDict [("login", JStr name)].

Definition node (number : Z) (title author : string) : json :=
  JDict [("title", JStr title); ("number", JInt number);
         ("author", login author)].

Definition search_json (nodes : list json) : json :=
  JDict [("data", JDict [("search", JDict [("nodes", JList nodes)])])].

Definition commit_abc : json :=
  commit_json "abc" "2023-01-01T00:00:00Z" "Release 1.0" (login "alice").

Definition commit_def : json :=
  commit_json "def" "2023-02-01T00:00:00Z" "Release 2.0" (login "bob").

Definition commit_fed : json :=
  commit_json "fed" "2023-03-01T00:00:00Z" "Work in progress" (login "carol").

(** A commit of an author without an account, and with a date that is no
    ISO date. *)
Definition commit_undated : json :=
  commit_json "bad" "yesterday" "Imported" JNull.

Definition pulls : list json :=
  [node 12 "Fix bug" "alice"; node 5 "Add feature" "bob"].

Definition serve (tags : json) (found : list json) (r : request) : option response :=
  match r with
  | GET url _ _ =>
      if String.eqb url "https://api.github.com/repos/OWNER/REPO/tags" then
        ok tags
      else if String.eqb url "https://api.github.com/repos/OWNER/REPO/git/refs/tags/v1.0" then
        ok (ref_json "commit" "abc"
              "https://api.github.com/repos/OWNER/REPO/git/commits/abc")
      else if String.eqb url "https://api.github.com/repos/OWNER/REPO/git/refs/tags/v2.0" then
        ok (ref_json "tag" "t20"
              "https://api.github.com/repos/OWNER/REPO/git/tags/t20")
      else if String.eqb url "https://api.github.com/repos/OWNER/REPO/git/tags/t20" then
        ok (ref_json "commit" "def"
              "https://api.github.com/repos/OWNER/REPO/git/commits/def")
      else if String.eqb url "https://api.github.com/repos/OWNER/REPO/commits/abc" then
        ok commit_abc
      else if String.eqb url "https://api.github.com/repos/OWNER/REPO/commits/def" then
        ok commit_def
      else if String.eqb url "https://api.github.com/repos/OWNER/REPO/commits" then
        ok (JList [commit_fed; commit_def; commit_abc])
      else not_found
  | POST url _ _ =>
      if String.eqb url "https://api.github.com/graphql" then
        ok (search_json found)
      else not_found
  end.

(** The forge serving the repository, whatever was asked before. *)
Definition forge : remote :=
  fun _ => serve (JList [JDict [("name", JStr "v2.0")];
                         JDict [("name", JStr "v1.0")]]) pulls.

(** The same repository, the search reporting pull request 5 twice. *)
Definition forge_twice : remote :=
  fun _ => serve (JList [JDict [("name", JStr "v2.0")]])
             [node 5 "Add feature" "bob"; node 12 "Fix bug" "alice";
              node 5 "Add feature" "bob"].

(** A repository without tags. *)
Definition forge_no_tags : remote := fun _ => serve (JList []) pulls.

(** A forge on which every reference leads to one more tag object. *)
Definition forge_tag_chain : remote :=
  fun _ _ =>
    ok (ref_json "tag" "t20"
          "https://api.github.com/repos/OWNER/REPO/git/tags/t20").

(** The same repository, the head of [master] being the commit of an
    author without an account. *)
Definition forge_anonymous : remote :=
  fun h r =>
    match r with
    | GET "https://api.github.com/repos/OWNER/REPO/commits" _ _ =>
        ok (JList [commit_json "fed" "2023-03-01T00:00:00Z" "Work in progress"
                     JNull;
                   commit_def; commit_abc])
    | _ => forge h r
    end.

(** A forge that is down. *)
Definition forge_down : remote :=
  fun _ _ => Some {| status_code := 503; body := None |}.

End Sample.

(** ** Vocabulary of the statements *)

Section Vocabulary.
Context {py : PyRuntime}.
Variable net : remote.

(** The request of [graphql_query]. *)
Definition graphql_request (self : GithubAPI.t) (query : string) : request :=
  POST (GitHubConfig.api_url (GithubAPI.config self) +++ "/graphql")
       (JDict [("query", JStr query)])
       (Authorization.bearer_auth
          (GitHubConfig.authorization (GithubAPI.config self))).

(** The one request of [get_prs_merged_between_commits]. *)
Definition search_request (self : GithubAPI.t) (first_commit last_commit : Commit.t)
    : request :=
  graphql_request self
    (GithubAPI.graphql_search
       (GithubAPI.merged_query self first_commit last_commit)).

(** What a response makes [api_query] and [graphql_query] do, [what] being
    the text their error carries. *)
Definition settle {X : Type} `{Format X} (what : X) (r : option response)
    : outcome json :=
  match r with
  | None => Raise RequestException
  | Some resp =>
      if (status_code resp =? 200)%Z then
        match body resp with
        | Some j => Return j
        | None => Raise JSONDecodeError
        end
      else Raise (GithubAPI.query_failed (status_code resp) what)
  end.

(** The nodes of a search response, as the list comprehension walks them. *)
Definition nodes_of (pr_json_list : json) : outcome (list json) :=
  let* data := getitem pr_json_list "data" in
  let* search := getitem data "search" in
  let* nodes := py_get search "nodes" (JList []) in
  py_iter nodes.

(** What comes of a search response: the pull requests of its nodes,
    sorted. *)
Definition decode_prs (pr_json_list : json) : outcome (list PullRequest.t) :=
  let* l := nodes_of pr_json_list in
  let* prs := omap GithubAPI.pull_request_of l in
  sorted_by_number prs.

(** The request of [api_query]. *)
Definition get_request {U : Type} `{Format U} (self : GithubAPI.t) (url : U)
    (params : option (list (string * string))) : request :=
  GET (py_str url) params
      (Authorization.token_auth
         (GitHubConfig.authorization (GithubAPI.config self))).

Definition lookup {U : Type} `{Format U} (self : GithubAPI.t) (url : U) : request :=
  get_request self url None.

(** After the requests [h], the remote answers [r] with status 200 and the
    JSON body [j]. *)
Definition answers (h : history) (r : request) (j : json) : Prop :=
  exists resp, net h r = Some resp
               /\ status_code resp = 200%Z /\ body resp = Some j.

(** [j] describes an annotated tag object whose own URL is [url]. *)
Definition tag_object (url : json) (j : json) : Prop :=
  exists o, getitem j "object" = Return o
            /\ getitem o "type" = Return (JStr "tag")
            /\ getitem o "url" = Return url.

(** [j] describes an object of type commit with the given sha. *)
Definition commit_object (sha : json) (j : json) : Prop :=
  exists o, getitem j "object" = Return o
            /\ getitem o "type" = Return (JStr "commit")
            /\ getitem o "sha" = Return sha.

(** The URL of the next iteration of the loop of [get_tag], after the
    lookup of [tag_url] returned [tag_json]. *)
Definition next_url (tag_url tag_json : json) : outcome json :=
  let* o := getitem tag_json "object" in
  let* ty := getitem o "type" in
  if eq_str ty "tag" then
    let* o' := getitem tag_json "object" in
    getitem o' "url"
  else Return tag_url.

(** The lookups of a chain of references, the first one first. *)
Definition chain_requests (self : GithubAPI.t) (url : json) (hops : list json)
    : list request :=
  map (lookup self) (url :: hops).

(** From [url] the remote leads through the annotated tag objects at
    [hops], one lookup each, to the description [last] of a commit
    object. *)
Fixpoint reaches (self : GithubAPI.t) (h : history) (url : json)
    (hops : list json) (last : json) : Prop :=
  match hops with
  | [] => answers h (lookup self url) last
  | u :: hops' =>
      exists j, answers h (lookup self url) j /\ tag_object u j
                /\ reaches self (lookup self url :: h) u hops' last
  end.

(** The request [r], whose error names [what], fails with [e]: [requests]
    got no response, the status of the response is not 200, or the body of
    a 200 is no JSON. *)
Definition fails {X : Type} `{Format X} (h : history) (r : request) (what : X)
    (e : exn) : Prop :=
  (net h r = None /\ e = RequestException)
  \/ exists resp,
       net h r = Some resp
       /\ ((status_code resp <> 200%Z
            /\ e = GithubAPI.query_failed (status_code resp) what)
           \/ (status_code resp = 200%Z /\ body resp = None
               /\ e = JSONDecodeError)).

(** [j] is a response on which the body of the loop of [get_tag] raises
    [e]: it has no ["object"], its object has no ["type"], or its object is
    a tag object without a ["url"]. *)
Definition malformed (j : json) (e : exn) : Prop :=
  getitem j "object" = Raise e
  \/ exists o,
       getitem j "object" = Return o
       /\ (getitem o "type" = Raise e
           \/ exists ty, getitem o "type" = Return ty
                         /\ eq_str ty "tag" = true
                         /\ getitem o "url" = Raise e).

(** [j] describes an object that is not of type commit, after which the
    loop of [get_tag] looks up [u]: the object's own URL when it is a tag
    object, the URL [url] it has just looked up otherwise. *)
Definition moves (url u j : json) : Prop :=
  exists o ty,
    getitem j "object" = Return o
    /\ getitem o "type" = Return ty
    /\ eq_str ty "commit" = false
    /\ ((eq_str ty "tag" = true /\ getitem o "url" = Return u)
        \/ (eq_str ty "tag" = false /\ u = url)).

(** From [url] the lookups of the loop, each answered with status 200, go
    through the URLs [hops] and end with the response [last]. *)
Fixpoint follows (self : GithubAPI.t) (h : history) (url : json)
    (hops : list json) (last : json) : Prop :=
  match hops with
  | [] => answers h (lookup self url) last
  | u :: hops' =>
      exists j, answers h (lookup self url) j /\ moves url u j
                /\ follows self (lookup self url :: h) u hops' last
  end.

(** From [url] the lookups of the loop go through the URLs [hops], and the
    last of them ends the loop with [e]: the lookup fails, or its response
    is malformed. *)
Fixpoint breaks (self : GithubAPI.t) (h : history) (url : json)
    (hops : list json) (e : exn) : Prop :=
  match hops with
  | [] =>
      fails h (lookup self url) url e
      \/ exists j, answers h (lookup self url) j /\ malformed j e
  | u :: hops' =>
      exists j, answers h (lookup self url) j /\ moves url u j
                /\ breaks self (lookup self url :: h) u hops' e
  end.

(** The two endpoints of [fetch_changes], as it resolves them: the
    previous commit, and then the current one. *)
Definition resolve_previous (fuel : nat) (github_api : GithubAPI.t)
    (previous_tag_name : option string) : M Commit.t :=
  match previous_tag_name with
  | None =>
      latest <- GithubAPI.get_latest_tag net fuel github_api ;;
      previous_tag <- GithubAPI.get_tag net fuel github_api latest ;;
      ret (Tag.commit previous_tag)
  | Some name =>
      previous_tag <- GithubAPI.get_tag net fuel github_api name ;;
      ret (Tag.commit previous_tag)
  end.

Definition resolve_current (fuel : nat) (github_api : GithubAPI.t)
    (current_tag_name : option string) (branch : string) : M Commit.t :=
  match current_tag_name with
  | Some name =>
      current_tag <- GithubAPI.get_tag net fuel github_api name ;;
      ret (Tag.commit current_tag)
  | None => GithubAPI.get_last_commit net github_api branch
  end.

End Vocabulary.

(** The top-level [author] of a commit response is absent or [null]. *)
Definition lacks_author (commit_json : json) : bool :=
  match commit_json with
  | JDict d =>
      match dict_get "author" d with
      | None | Some JNull => true
      | Some _ => false
      end
  | _ => false
  end.

(** The [commit.author.date] of a commit response is there, and parsing it
    raises [e]. *)
Definition date_error {py : PyRuntime} (commit_json : json) (e : exn) : Prop :=
  exists c a d, getitem commit_json "commit" = Return c
                /\ getitem c "author" = Return a
                /\ getitem a "date" = Return d
                /\ parse_datetime_string d = Raise e.

(** What [Commit.init_from_api] can raise on [commit_json]: never the
    module's [GitHubError]; the error of a failed subscription, or the
    error of parsing the date. *)
Definition commit_failure {py : PyRuntime} (commit_json : json) (e : exn) : Prop :=
  is_GitHubError e = false
  /\ (is_lookup_error e = true \/ date_error commit_json e).

(** An outcome of plain evaluation: a value or an exception. *)
Definition settled {A : Type} (o : outcome A) : Prop :=
  match o with
  | Return _ | Raise _ => True
  | OutOfFuel | Unmodelled => False
  end.

(** Ascending order of two decorated entries' keys. *)
Definition key_le {A : Type} (x y : Z * A) : Prop := (fst x <= fst y)%Z.

(** Ascending order of two pull requests' numbers. *)
Definition number_le (a b : PullRequest.t) : Prop :=
  match PullRequest.number a, PullRequest.number b with
  | JInt x, JInt y => (x <= y)%Z
  | _, _ => False
  end.

(** The commits of the sample repository, as [Commit.init_from_api] builds
    them on [GithubClock]. *)
Module SampleCommits.

Definition at_midnight (y m d : nat) : GithubClock.timestamp :=
  {| GithubClock.year := y; GithubClock.month := m; GithubClock.day := d;
     GithubClock.hour := 0; GithubClock.minute := 0; GithubClock.second := 0 |}.

Definition abc : @Commit.t GithubClock.runtime :=
  @Commit.Build_t GithubClock.runtime (JStr "abc") (at_midnight 2023 1 1)
    (JStr "Release 1.0") (JStr "alice").

Definition def : @Commit.t GithubClock.runtime :=
  @Commit.Build_t GithubClock.runtime (JStr "def") (at_midnight 2023 2 1)
    (JStr "Release 2.0") (JStr "bob").

Definition fed : @Commit.t GithubClock.runtime :=
  @Commit.Build_t GithubClock.runtime (JStr "fed") (at_midnight 2023 3 1)
    (JStr "Work in progress") (JStr "carol").

(** The latest tag, as [get_latest_tag] returns it. *)
Definition latest : @Tag.t GithubClock.runtime json :=
  @Tag.Build_t GithubClock.runtime json (JStr "v2.0") def.

(** The lookups that resolve [v2.0], the latest first. *)
Definition v2_lookups : history :=
  map (@lookup string (@Format_str GithubClock.runtime) Sample.api)
    ["https://api.github.com/repos/OWNER/REPO/commits/def";
     "https://api.github.com/repos/OWNER/REPO/git/tags/t20";
     "https://api.github.com/repos/OWNER/REPO/git/refs/tags/v2.0"].

Definition tags_lookup : request :=
  @lookup string (@Format_str GithubClock.runtime) Sample.api
    "https://api.github.com/repos/OWNER/REPO/tags".

Definition pr5 : PullRequest.t :=
  {| PullRequest.number := JInt 5; PullRequest.title := JStr "Add feature";
     PullRequest.author := JStr "bob" |}.

Definition pr12 : PullRequest.t :=
  {| PullRequest.number := JInt 12; PullRequest.title := JStr "Fix bug";
     PullRequest.author := JStr "alice" |}.

End SampleCommits.

(** ** Vocabulary of the statements about requests *)

Definition is_get (r : request) : bool :=
  match r with
  | GET _ _ _ => true
  | POST _ _ _ => false
  end.

(** [r] carries the [Authorization] header of the client's configuration:
    the token scheme on a GET, the bearer scheme on a POST. *)
Definition authorized (self : GithubAPI.t) (r : request) : Prop :=
  match r with
  | GET _ _ headers =>
      headers = Authorization.token_auth
                  (GitHubConfig.authorization (GithubAPI.config self))
  | POST _ _ headers =>
      headers = Authorization.bearer_auth
                  (GitHubConfig.authorization (GithubAPI.config self))
  end.

(** Whatever the requests made before, the call only adds requests to the
    history, and each request it adds satisfies [P]. *)
Definition issues {A : Type} (P : request -> Prop) (m : M A) : Prop :=
  forall h, exists rs, snd (m h) = rev rs ++ h /\ Forall P rs.

(** ** Further forges *)

Module Cases.

(** A forge that answers every request with an empty JSON object. *)
Definition forge_blank : remote := fun _ _ => Sample.ok (JDict []).

(** A forge on which every reference names a tree. *)
Definition tree_json : json :=
  Sample.ref_json "tree" "7ree"
    "https://api.github.com/repos/OWNER/REPO/git/trees/7ree".

Definition forge_tree : remote := fun _ _ => Sample.ok tree_json.

(** The sample repository, the search reporting the pull requests in the
    other order. *)
Definition forge_reordered : remote :=
  fun _ => Sample.serve (JList [JDict [("name", JStr "v2.0")];
                                JDict [("name", JStr "v1.0")]])
             [Sample.node 5 "Add feature" "bob"; Sample.node 12 "Fix bug" "alice"].

(** A forge whose search result has no [nodes]. *)
Definition no_nodes_json : json :=
  JDict [("data", JDict [("search", JDict [("issueCount", JInt 0)])])].

Definition forge_no_nodes : remote := fun _ _ => Sample.ok no_nodes_json.

(** A forge that answers every request with a comparison of two commits. *)
Definition compare_json : json :=
  JDict [("status", JStr "ahead");
         ("commits", JList [Sample.commit_def; Sample.commit_fed])].

Definition forge_compare : remote := fun _ _ => Sample.ok compare_json.

(** A forge that has the reference of [v2.0], an annotated tag, and fails
    with status 500 on everything else, the tag object included. *)
Definition forge_broken_tag : remote :=
  fun _ r =>
    match r with
    | GET "https://api.github.com/repos/OWNER/REPO/git/refs/tags/v2.0" _ _ =>
        Sample.ok (Sample.ref_json "tag" "t20"
                     "https://api.github.com/repos/OWNER/REPO/git/tags/t20")
    | _ => Some {| status_code := 500; body := None |}
    end.

End Cases.

(** * Properties *)

(** ** The monad *)

Section MonadFacts.
Context {A B : Type}.

Lemma bind_ret (a : A) (k : A -> M B) (h : history) :
  bind (ret a) k h = k a h.
Proof. reflexivity. Qed.

Lemma bind_lift_return (a : A) (k : A -> M B) (h : history) :
  bind (lift (Return a)) k h = k a h.
Proof. reflexivity. Qed.

Lemma bind_lift_raise (e : exn) (k : A -> M B) (h : history) :
  bind (lift (Raise e)) k h = (Raise e, h).
Proof. reflexivity. Qed.

Lemma bind_return (m : M A) (k : A -> M B) (h h' : history) (a : A) :
  m h = (Return a, h') -> bind m k h = k a h'.
Proof. intros E; unfold bind; now rewrite E. Qed.

Lemma bind_raise (m : M A) (k : A -> M B) (h h' : history) (e : exn) :
  m h = (Raise e, h') -> bind m k h = (Raise e, h').
Proof. intros E; unfold bind; now rewrite E. Qed.

Lemma bind_out_of_fuel (m : M A) (k : A -> M B) (h h' : history) :
  m h = (OutOfFuel, h') -> bind m k h = (OutOfFuel, h').
Proof. intros E; unfold bind; now rewrite E. Qed.

(** What [bind] returned, its first half returned. *)
Lemma bind_inv_return (m : M A) (k : A -> M B) (h h' : history) (b : B) :
  bind m k h = (Return b, h') ->
  exists a h1, m h = (Return a, h1) /\ k a h1 = (Return b, h').
Proof.
  unfold bind; destruct (m h) as [[a | e | | ] h1]; intros E;
    try discriminate; eauto.
Qed.

End MonadFacts.

Lemma obind_inv_return {A B : Type} (o : outcome A) (k : A -> outcome B) (b : B) :
  obind o k = Return b -> exists a, o = Return a /\ k a = Return b.
Proof. destruct o; simpl; intros E; try discriminate; eauto. Qed.

Lemma lift_inv_return {A : Type} (o : outcome A) (h h' : history) (a : A) :
  lift o h = (Return a, h') -> o = Return a /\ h' = h.
Proof. unfold lift; intros E; inversion E; auto. Qed.

(** ** Strings *)

Lemma prefix_append (s t : string) : prefix s (s +++ t) = true.
Proof.
  induction s as [| c s IH]; simpl.
  - now destruct t.
  - destruct (ascii_dec c c); [exact IH | contradiction].
Qed.

Lemma contains_unfold (s t : string) :
  contains s t = prefix s t || match t with
                               | EmptyString => false
                               | String _ t' => contains s t'
                               end.
Proof. destruct t; reflexivity. Qed.

Lemma contains_here (s t : string) : contains s (s +++ t) = true.
Proof. rewrite contains_unfold, prefix_append; reflexivity. Qed.

Lemma contains_after (p s t : string) :
  contains s t = true -> contains s (p +++ t) = true.
Proof.
  intros E. induction p as [| c p IH]; simpl; [exact E |].
  rewrite IH. apply orb_true_r.
Qed.

(** [s] occurs in every text built around it. *)
Lemma contains_append (p s t : string) : contains s (p +++ s +++ t) = true.
Proof. apply contains_after, contains_here. Qed.

Lemma contains_self (s : string) : contains s s = true.
Proof.
  rewrite contains_unfold.
  replace (prefix s s) with true; [reflexivity |].
  symmetry. induction s as [| c s IH]; simpl; [reflexivity |].
  destruct (ascii_dec c c); [exact IH | contradiction].
Qed.

Lemma contains_end (p s : string) : contains s (p +++ s) = true.
Proof. apply contains_after, contains_self. Qed.

(** ** The formatter *)

Section Formatter.
Context {py : PyRuntime} {B : Type} `{Format B}.
Variables (base_url : B) (owner repo : string).

(** The two accumulators of the loop after a run over [prs]. *)
Lemma format_loop (prs : list PullRequest.t) (bullets urls : list string) :
  fold_left (fun acc pr =>
               (fst acc ++ [bullet pr], snd acc ++ [link base_url owner repo pr]))
            prs (bullets, urls)
  = (bullets ++ map bullet prs, urls ++ map (link base_url owner repo) prs).
Proof.
  revert bullets urls.
  induction prs as [| pr prs IH]; intros bullets urls; simpl.
  - now rewrite !app_nil_r.
  - rewrite IH, <- !app_assoc. reflexivity.
Qed.

Lemma format_changes_eq (prs : list PullRequest.t) :
  format_changes base_url owner repo prs
  = map bullet prs ++ map (link base_url owner repo) prs.
Proof. unfold format_changes. now rewrite format_loop. Qed.

(** C9: the formatter returns one bullet line per pull request, in the
    order of the input and of the form [- `#N`_ Title (@author)], followed
    by one link-target line per pull request, in the same order and of the
    form [.. _#N: <base_url>/<owner>/<repo>/pull/N]; for the empty list it
    returns no line, which [join] turns into the empty text. *)
Theorem format_changes_layout (prs : list PullRequest.t) (single_line : bool) :
  format_changes base_url owner repo prs
  = map (fun pr =>
           "- `#" +++ py_str (PullRequest.number pr) +++ "`_ "
             +++ py_str (PullRequest.title pr)
             +++ " (@" +++ py_str (PullRequest.author pr) +++ ")") prs
    ++ map (fun pr =>
              ".. _#" +++ py_str (PullRequest.number pr) +++ ": "
                +++ py_str base_url +++ "/" +++ owner +++ "/" +++ repo
                +++ "/pull/" +++ py_str (PullRequest.number pr)) prs
  /\ format_changes base_url owner repo [] = []
  /\ join_lines single_line (format_changes base_url owner repo []) = "".
Proof.
  split; [apply format_changes_eq |].
  split; [reflexivity | now destruct single_line].
Qed.

End Formatter.

(** ** The stable sort *)

Section SortFacts.
Context {A : Type}.

Lemma insert_by_key_perm (x : Z * A) (l : list (Z * A)) :
  Permutation (x :: l) (insert_by_key x l).
Proof.
  induction l as [| y l IH]; simpl; [reflexivity |].
  destruct (fst y <? fst x)%Z; [| reflexivity].
  rewrite perm_swap. now apply perm_skip.
Qed.

Lemma stable_sort_perm (l : list (Z * A)) : Permutation l (stable_sort l).
Proof.
  induction l as [| x l IH]; simpl; [reflexivity |].
  rewrite <- insert_by_key_perm. now apply perm_skip.
Qed.

Lemma insert_by_key_hd (x y : Z * A) (l : list (Z * A)) :
  key_le y x -> HdRel key_le y l -> HdRel key_le y (insert_by_key x l).
Proof.
  intros Hyx Hl. destruct l as [| z l]; simpl; [now constructor |].
  inversion Hl; subst. destruct (fst z <? fst x)%Z; now constructor.
Qed.

Lemma insert_by_key_sorted (x : Z * A) (l : list (Z * A)) :
  Sorted key_le l -> Sorted key_le (insert_by_key x l).
Proof.
  induction 1 as [| y l Hl IH Hy]; simpl; [repeat constructor |].
  destruct (fst y <? fst x)%Z eqn:E.
  - constructor; [exact IH |].
    apply insert_by_key_hd; [| exact Hy].
    apply Z.ltb_lt in E. unfold key_le. lia.
  - apply Z.ltb_ge in E.
    constructor; [now constructor |]. now constructor.
Qed.

Lemma stable_sort_sorted (l : list (Z * A)) : Sorted key_le (stable_sort l).
Proof.
  induction l as [| x l IH]; simpl; [constructor |].
  now apply insert_by_key_sorted.
Qed.

Lemma stable_sort_strongly_sorted (l : list (Z * A)) :
  StronglySorted key_le (stable_sort l).
Proof.
  apply Sorted_StronglySorted; [| apply stable_sort_sorted].
  intros x y z; unfold key_le; lia.
Qed.

(** Stability: entries of one key keep their order. *)
Lemma insert_by_key_stable (k : Z) (x : Z * A) (l : list (Z * A)) :
  filter (fun y => (fst y =? k)%Z) (insert_by_key x l)
  = filter (fun y => (fst y =? k)%Z) (x :: l).
Proof.
  induction l as [| y l IH]; [reflexivity |].
  simpl insert_by_key. destruct (fst y <? fst x)%Z eqn:E; [| reflexivity].
  apply Z.ltb_lt in E. simpl. rewrite IH. simpl.
  destruct (fst x =? k)%Z eqn:Ex, (fst y =? k)%Z eqn:Ey; try reflexivity.
  apply Z.eqb_eq in Ex, Ey. lia.
Qed.

Lemma stable_sort_stable (k : Z) (l : list (Z * A)) :
  filter (fun y => (fst y =? k)%Z) (stable_sort l)
  = filter (fun y => (fst y =? k)%Z) l.
Proof.
  induction l as [| x l IH]; [reflexivity |].
  simpl stable_sort. rewrite insert_by_key_stable. simpl. now rewrite IH.
Qed.

(** Two sorted lists with the same entries under each key, in the same
    order, are one list: every stable sort returns what [stable_sort]
    returns. *)
Lemma sorted_stable_unique (l1 : list (Z * A)) :
  forall l2 : list (Z * A),
    StronglySorted key_le l1 -> StronglySorted key_le l2 ->
    (forall k, filter (fun y => (fst y =? k)%Z) l1
               = filter (fun y => (fst y =? k)%Z) l2) ->
    l1 = l2.
Proof.
  induction l1 as [| x l1 IH]; intros l2 S1 S2 F.
  - destruct l2 as [| y l2]; [reflexivity |].
    specialize (F (fst y)). simpl in F. rewrite Z.eqb_refl in F. discriminate.
  - destruct l2 as [| y l2].
    { specialize (F (fst x)). simpl in F. rewrite Z.eqb_refl in F. discriminate. }
    inversion S1 as [| ? ? S1' H1]; subst. inversion S2 as [| ? ? S2' H2]; subst.
    rewrite Forall_forall in H1, H2.
    assert (K : fst x = fst y).
    { destruct (Z.eq_dec (fst x) (fst y)) as [E | N]; [exact E |].
      assert (Iy : In y l1).
      { pose proof (F (fst y)) as Fy. simpl in Fy.
        rewrite Z.eqb_refl in Fy.
        destruct (fst x =? fst y)%Z eqn:Exy; [apply Z.eqb_eq in Exy; contradiction |].
        assert (I' : In y (filter (fun y0 => (fst y0 =? fst y)%Z) l1))
          by (rewrite Fy; now left).
        apply filter_In in I'. tauto. }
      assert (Ix : In x l2).
      { pose proof (F (fst x)) as Fx. simpl in Fx.
        rewrite Z.eqb_refl in Fx.
        destruct (fst y =? fst x)%Z eqn:Eyx;
          [apply Z.eqb_eq in Eyx; symmetry in Eyx; contradiction |].
        assert (I' : In x (filter (fun y0 => (fst y0 =? fst x)%Z) l2))
          by (rewrite <- Fx; now left).
        apply filter_In in I'. tauto. }
      pose proof (H1 y Iy) as Lxy. pose proof (H2 x Ix) as Lyx.
      unfold key_le in Lxy, Lyx. lia. }
    assert (E : x = y).
    { pose proof (F (fst x)) as Fx. simpl in Fx.
      rewrite Z.eqb_refl in Fx. rewrite <- K, Z.eqb_refl in Fx.
      now inversion Fx. }
    subst y. f_equal. apply IH; [exact S1' | exact S2' |].
    intros k. specialize (F k). simpl in F.
    destruct (fst x =? k)%Z; [now inversion F | exact F].
Qed.

Lemma stable_sort_unique (l out : list (Z * A)) :
  StronglySorted key_le out ->
  (forall k, filter (fun y => (fst y =? k)%Z) out
             = filter (fun y => (fst y =? k)%Z) l) ->
  out = stable_sort l.
Proof.
  intros S F. apply sorted_stable_unique;
    [exact S | apply stable_sort_strongly_sorted |].
  intros k. now rewrite stable_sort_stable.
Qed.

End SortFacts.

Lemma decorate_snd (prs : list PullRequest.t) (l : list (Z * PullRequest.t)) :
  decorate prs = Some l -> map snd l = prs.
Proof.
  revert l. induction prs as [| pr prs IH]; simpl; intros l E.
  - now inversion E.
  - unfold int_key in E. destruct (PullRequest.number pr); try discriminate.
    destruct (decorate prs) as [l' |]; [| discriminate].
    inversion E; subst; simpl. now rewrite IH.
Qed.

Lemma decorate_keys (prs : list PullRequest.t) (l : list (Z * PullRequest.t)) :
  decorate prs = Some l ->
  Forall (fun x => PullRequest.number (snd x) = JInt (fst x)) l.
Proof.
  revert l. induction prs as [| pr prs IH]; simpl; intros l E.
  - inversion E; constructor.
  - unfold int_key in E. destruct (PullRequest.number pr) eqn:En; try discriminate.
    destruct (decorate prs) as [l' |]; [| discriminate].
    inversion E; subst. constructor; [exact En | now apply IH].
Qed.

Lemma sorted_by_number_perm (prs out : list PullRequest.t) :
  sorted_by_number prs = Return out -> Permutation prs out.
Proof.
  unfold sorted_by_number. destruct (decorate prs) as [l |] eqn:E; [| discriminate].
  intros R; inversion R; subst.
  rewrite <- (decorate_snd _ _ E). apply Permutation_map, stable_sort_perm.
Qed.

Lemma number_le_of_keys (l : list (Z * PullRequest.t)) :
  Forall (fun x => PullRequest.number (snd x) = JInt (fst x)) l ->
  StronglySorted key_le l -> StronglySorted number_le (map snd l).
Proof.
  intros Hk Hs. induction Hs as [| x l Hs IH Hx]; simpl; [constructor |].
  inversion Hk as [| ? ? Kx Kl]; subst.
  constructor; [now apply IH |].
  apply Forall_map. rewrite Forall_forall in *. intros y Hy.
  unfold number_le. rewrite Kx, (Kl y Hy). exact (Hx y Hy).
Qed.

Lemma sorted_by_number_sorted (prs out : list PullRequest.t) :
  sorted_by_number prs = Return out -> StronglySorted number_le out.
Proof.
  unfold sorted_by_number. destruct (decorate prs) as [l |] eqn:E; [| discriminate].
  intros R; inversion R; subst.
  apply number_le_of_keys; [| apply stable_sort_strongly_sorted].
  eapply Permutation_Forall; [apply stable_sort_perm |].
  exact (decorate_keys _ _ E).
Qed.

(** ** Requests and their errors *)

Section Requests.
Context {py : PyRuntime}.
Variable net : remote.
Variable self : GithubAPI.t.

Lemma api_query_run {U : Type} `{Format U} (url : U)
    (params : option (list (string * string))) (h : history) :
  GithubAPI.api_query net self url params h
  = (settle url (net h (get_request self url params)),
     get_request self url params :: h).
Proof.
  unfold GithubAPI.api_query, bind, send, settle, get_request.
  destruct (net h _) as [resp |]; [| reflexivity].
  destruct (status_code resp =? 200)%Z; [| reflexivity].
  now destruct (body resp).
Qed.

Lemma graphql_query_run (query : string) (h : history) :
  GithubAPI.graphql_query net self query h
  = (settle query (net h (graphql_request self query)),
     graphql_request self query :: h).
Proof.
  unfold GithubAPI.graphql_query, bind, send, settle, graphql_request.
  destruct (net h _) as [resp |]; [| reflexivity].
  destruct (status_code resp =? 200)%Z; [| reflexivity].
  now destruct (body resp).
Qed.

Lemma api_query_answers {U : Type} `{Format U} (url : U)
    (params : option (list (string * string))) (h : history) (j : json) :
  answers net h (get_request self url params) j ->
  GithubAPI.api_query net self url params h
  = (Return j, get_request self url params :: h).
Proof.
  intros (resp & E & Hs & Hb). rewrite api_query_run, E. simpl.
  now rewrite Hs, Hb.
Qed.

(** A response makes [settle] raise [GitHubError] when its status is not
    200, and then the message ends with the status, an empty line and the
    text [what]. *)
Lemma settle_error {X : Type} `{Format X} (what : X) (resp : response) :
  ((exists msg, settle what (Some resp) = Raise (GitHubError msg))
   <-> status_code resp <> 200%Z)
  /\ (status_code resp <> 200%Z ->
      exists msg,
        settle what (Some resp) = Raise (GitHubError msg)
        /\ contains (py_str what) msg = true
        /\ contains (str_of_Z (status_code resp)) msg = true).
Proof.
  unfold settle. destruct (status_code resp =? 200)%Z eqn:E.
  - apply Z.eqb_eq in E. split.
    + split; [| intros N; contradiction].
      intros (msg & R). destruct (body resp); discriminate.
    + intros N; contradiction.
  - apply Z.eqb_neq in E. split.
    + split; [intros _; exact E |]. intros _. eexists. reflexivity.
    + intros _. eexists. split; [reflexivity |]. split.
      * unfold GithubAPI.query_failed.
        do 3 apply contains_after. apply contains_end.
      * apply contains_append.
Qed.

End Requests.

Section RequestErrors.
Context {py : PyRuntime}.
Variable net : remote.
Variable self : GithubAPI.t.

(** C7, as the code has it: a request that gets a response raises
    [GitHubError] if and only if the status of the response is not 200.
    The error of a resource-style GET carries the URL and the status; the
    error of the GraphQL POST carries the status and the text of the query
    in place of the URL. *)
Theorem query_errors {U : Type} `{Format U} (url : U)
    (params : option (list (string * string))) (query : string) (h : history) :
  (forall resp, net h (get_request self url params) = Some resp ->
     ((exists msg, fst (GithubAPI.api_query net self url params h)
                   = Raise (GitHubError msg))
      <-> status_code resp <> 200%Z)
     /\ (status_code resp <> 200%Z ->
         exists msg,
           fst (GithubAPI.api_query net self url params h) = Raise (GitHubError msg)
           /\ contains (py_str url) msg = true
           /\ contains (str_of_Z (status_code resp)) msg = true))
  /\ (forall resp, net h (graphql_request self query) = Some resp ->
        ((exists msg, fst (GithubAPI.graphql_query net self query h)
                      = Raise (GitHubError msg))
         <-> status_code resp <> 200%Z)
        /\ (status_code resp <> 200%Z ->
            exists msg,
              fst (GithubAPI.graphql_query net self query h) = Raise (GitHubError msg)
              /\ contains query msg = true
              /\ contains (str_of_Z (status_code resp)) msg = true)).
Proof.
  split; intros resp E.
  - rewrite api_query_run, E. cbn [fst]. exact (settle_error url resp).
  - rewrite graphql_query_run, E. cbn [fst]. exact (settle_error query resp).
Qed.

End RequestErrors.

(** ** The search for merged pull requests *)

Lemma omap_length {A B : Type} (f : A -> outcome B) (l : list A) (out : list B) :
  omap f l = Return out -> length out = length l.
Proof.
  revert out. induction l as [| x l IH]; simpl; intros out E.
  - now inversion E.
  - destruct (f x); try discriminate. simpl in E.
    destruct (omap f l); try discriminate. inversion E; subst; simpl.
    now rewrite (IH _ eq_refl).
Qed.

Lemma omap_each {A B : Type} (f : A -> outcome B) (l : list A) (out : list B) :
  omap f l = Return out -> Forall2 (fun x y => f x = Return y) l out.
Proof.
  revert out. induction l as [| x l IH]; simpl; intros out E.
  - inversion E; constructor.
  - destruct (f x) eqn:Fx; try discriminate. simpl in E.
    destruct (omap f l); try discriminate. inversion E; subst.
    constructor; [exact Fx | now apply IH].
Qed.

Lemma pull_request_of_number (node : json) (pr : PullRequest.t) :
  GithubAPI.pull_request_of node = Return pr ->
  getitem node "number" = Return (PullRequest.number pr).
Proof.
  unfold GithubAPI.pull_request_of. intros E.
  destruct (getitem node "number"); try discriminate. simpl in E.
  destruct (getitem node "title"); try discriminate. simpl in E.
  destruct (getitem node "author"); try discriminate. simpl in E.
  destruct (getitem _ "login"); try discriminate. now inversion E.
Qed.

Section Search.
Context {py : PyRuntime}.
Variable net : remote.
Variable self : GithubAPI.t.

(** The search issues its one request and decodes the response. *)
Lemma get_prs_run (first_commit last_commit : Commit.t) (h : history) :
  GithubAPI.get_prs_merged_between_commits net self first_commit last_commit h
  = (obind (settle (GithubAPI.graphql_search
                      (GithubAPI.merged_query self first_commit last_commit))
                   (net h (search_request self first_commit last_commit)))
           decode_prs,
     search_request self first_commit last_commit :: h).
Proof.
  unfold GithubAPI.get_prs_merged_between_commits, bind.
  rewrite graphql_query_run. fold (search_request self first_commit last_commit).
  destruct (settle _ _) as [j | e | |]; try reflexivity.
  unfold decode_prs, nodes_of, lift; simpl.
  destruct (getitem j "data") as [d | | |]; try reflexivity; simpl.
  destruct (getitem d "search") as [s | | |]; try reflexivity; simpl.
  destruct (py_get s "nodes" (JList [])) as [n | | |]; try reflexivity; simpl.
  destruct (py_iter n) as [l | | |]; try reflexivity; simpl.
  destruct (omap GithubAPI.pull_request_of l); reflexivity.
Qed.

Lemma settle_inv_return {X : Type} `{Format X} (what : X)
    (r : option response) (j : json) :
  settle what r = Return j ->
  exists resp, r = Some resp /\ status_code resp = 200%Z /\ body resp = Some j.
Proof.
  unfold settle. destruct r as [resp |]; [| discriminate].
  destruct (status_code resp =? 200)%Z eqn:E; [| discriminate].
  destruct (body resp) as [j' |] eqn:Eb; [| discriminate].
  intros R; inversion R; subst. apply Z.eqb_eq in E.
  exists resp. repeat split; assumption.
Qed.

Lemma get_prs_inv (first_commit last_commit : Commit.t) (h h' : history)
    (prs : list PullRequest.t) :
  GithubAPI.get_prs_merged_between_commits net self first_commit last_commit h
  = (Return prs, h') ->
  exists j nodes raw,
    answers net h (search_request self first_commit last_commit) j
    /\ nodes_of j = Return nodes
    /\ omap GithubAPI.pull_request_of nodes = Return raw
    /\ sorted_by_number raw = Return prs
    /\ h' = search_request self first_commit last_commit :: h.
Proof.
  rewrite get_prs_run. intros E. injection E as R Hh.
  apply obind_inv_return in R. destruct R as (j & S & D).
  apply settle_inv_return in S.
  unfold decode_prs in D.
  apply obind_inv_return in D. destruct D as (nodes & N & D).
  apply obind_inv_return in D. destruct D as (raw & O & D).
  exists j, nodes, raw. repeat split; auto.
Qed.

(** C3: whatever the search response and the order of its entries, the
    list that [get_prs_merged_between_commits] returns is in ascending order
    of pull request number: each entry's number is at most that of every
    entry after it. *)
Theorem prs_sorted (first_commit last_commit : Commit.t) (h h' : history)
    (prs : list PullRequest.t) :
  GithubAPI.get_prs_merged_between_commits net self first_commit last_commit h
  = (Return prs, h') ->
  StronglySorted number_le prs.
Proof.
  intros E. apply get_prs_inv in E.
  destruct E as (j & nodes & raw & _ & _ & _ & S & _).
  exact (sorted_by_number_sorted _ _ S).
Qed.

(** C2, as the code has it: the list returned holds one pull request per
    node of the search response, with that node's number, duplicates
    included: it is a rearrangement of the nodes' pull requests, so it has
    at most one entry per number exactly when the nodes' numbers are
    distinct. *)
Theorem prs_one_per_node (first_commit last_commit : Commit.t) (h h' : history)
    (prs : list PullRequest.t) :
  GithubAPI.get_prs_merged_between_commits net self first_commit last_commit h
  = (Return prs, h') ->
  exists j nodes raw,
    answers net h (search_request self first_commit last_commit) j
    /\ nodes_of j = Return nodes
    /\ Forall2 (fun node pr => getitem node "number"
                               = Return (PullRequest.number pr)) nodes raw
    /\ Permutation raw prs
    /\ length prs = length nodes
    /\ (NoDup (map PullRequest.number prs)
        <-> NoDup (map PullRequest.number raw)).
Proof.
  intros E. apply get_prs_inv in E.
  destruct E as (j & nodes & raw & A & N & O & S & _).
  pose proof (sorted_by_number_perm _ _ S) as P.
  exists j, nodes, raw. repeat split; auto.
  - eapply Forall2_impl; [| exact (omap_each _ _ _ O)].
    intros node pr. apply pull_request_of_number.
  - rewrite <- (Permutation_length P). exact (omap_length _ _ _ O).
  - apply Permutation_NoDup, Permutation_map, Permutation_sym, P.
  - apply Permutation_NoDup, Permutation_map, P.
Qed.

(** C8, as the code has it: when both commits are the same commit the
    search is issued as for any other pair, with the window [T..T] of that
    commit's date, and the list returned holds one pull request per node of
    the response: it is empty only when the response has no node.  A
    response whose status is not 200 raises [GitHubError]. *)
Theorem same_commit_search (c : Commit.t) (h : history) :
  snd (GithubAPI.get_prs_merged_between_commits net self c c h)
  = search_request self c c :: h
  /\ GithubAPI.merged_query self c c
     = "repo:" +++ GithubAPI.owner self +++ "/" +++ GithubAPI.repo self
         +++ " is:pr is:merged created:" +++ isoformat (Commit.datetime c)
         +++ ".." +++ isoformat (Commit.datetime c)
  /\ (forall prs h',
        GithubAPI.get_prs_merged_between_commits net self c c h = (Return prs, h') ->
        exists j nodes,
          answers net h (search_request self c c) j
          /\ nodes_of j = Return nodes
          /\ length prs = length nodes)
  /\ (forall resp,
        net h (search_request self c c) = Some resp ->
        status_code resp <> 200%Z ->
        exists msg,
          fst (GithubAPI.get_prs_merged_between_commits net self c c h)
          = Raise (GitHubError msg)).
Proof.
  split; [now rewrite get_prs_run |].
  split; [reflexivity |].
  split.
  - intros prs h' E. apply get_prs_inv in E.
    destruct E as (j & nodes & raw & A & N & O & S & _).
    exists j, nodes. repeat split; auto.
    rewrite <- (Permutation_length (sorted_by_number_perm _ _ S)).
    exact (omap_length _ _ _ O).
  - intros resp E N. rewrite get_prs_run, E. simpl.
    apply Z.eqb_neq in N. rewrite N. simpl. eexists. reflexivity.
Qed.

End Search.

(** ** Resolving a tag *)

Lemma getitem_settled (v : json) (k : string) : settled (getitem v k).
Proof.
  destruct v; simpl; auto. destruct (dict_get k d); simpl; auto.
Qed.

Lemma not_yet_commit_settled (j : json) : settled (GithubAPI.not_yet_commit j).
Proof.
  unfold GithubAPI.not_yet_commit.
  destruct (py_in "object" j) as [[|] | | |] eqn:E; simpl; auto;
    try (destruct j; discriminate).
  pose proof (getitem_settled j "object") as S1.
  destruct (getitem j "object") as [o | | |]; simpl; auto.
  pose proof (getitem_settled o "type") as S2.
  destruct (getitem o "type"); simpl; auto.
Qed.

Lemma not_yet_commit_start : GithubAPI.not_yet_commit (JDict []) = Return true.
Proof. reflexivity. Qed.

Lemma getitem_in (j o : json) (k : string) :
  getitem j k = Return o -> py_in k j = Return true.
Proof.
  destruct j; simpl; try discriminate.
  destruct (dict_get k d); [reflexivity | discriminate].
Qed.

Lemma not_yet_commit_tag (u j : json) :
  tag_object u j -> GithubAPI.not_yet_commit j = Return true.
Proof.
  intros (o & O & T & _). unfold GithubAPI.not_yet_commit.
  rewrite (getitem_in _ _ _ O). cbn [obind negb]. rewrite O. cbn [obind].
  now rewrite T.
Qed.

Lemma not_yet_commit_commit (sha j : json) :
  commit_object sha j -> GithubAPI.not_yet_commit j = Return false.
Proof.
  intros (o & O & T & _). unfold GithubAPI.not_yet_commit.
  rewrite (getitem_in _ _ _ O). cbn [obind negb]. rewrite O. cbn [obind].
  now rewrite T.
Qed.

Lemma next_url_tag (url u j : json) : tag_object u j -> next_url url j = Return u.
Proof.
  intros (o & O & T & U). unfold next_url.
  rewrite O. cbn [obind]. rewrite T. cbn [obind]. simpl eq_str. cbn iota.
  exact U.
Qed.

Lemma next_url_commit (url sha j : json) :
  commit_object sha j -> next_url url j = Return url.
Proof.
  intros (o & O & T & _). unfold next_url. rewrite O. cbn [obind].
  now rewrite T.
Qed.

Section Dereference.
Context {py : PyRuntime}.
Variable net : remote.
Variable self : GithubAPI.t.

(** The loop does nothing once the object is of type commit, or when its
    condition raises. *)
Lemma loop_done (fuel : nat) (url j : json) (h : history) :
  GithubAPI.not_yet_commit j = Return false ->
  GithubAPI.get_tag_loop net fuel self url j h = (Return j, h).
Proof.
  intros E. destruct fuel; simpl; unfold bind, lift; now rewrite E.
Qed.

Lemma loop_raise (fuel : nat) (url j : json) (h : history) (e : exn) :
  GithubAPI.not_yet_commit j = Raise e ->
  GithubAPI.get_tag_loop net fuel self url j h = (Raise e, h).
Proof.
  intros E. destruct fuel; simpl; unfold bind, lift; now rewrite E.
Qed.

Lemma loop_out_of_fuel (url j : json) (h : history) :
  GithubAPI.not_yet_commit j = Return true ->
  GithubAPI.get_tag_loop net 0 self url j h = (OutOfFuel, h).
Proof. intros E. simpl; unfold bind, lift; now rewrite E. Qed.

(** One iteration: one lookup, then the loop again on what it returned. *)
Lemma loop_step (fuel : nat) (url j : json) (h : history) :
  GithubAPI.not_yet_commit j = Return true ->
  GithubAPI.get_tag_loop net (S fuel) self url j h
  = match (let* j' := settle url (net h (lookup self url)) in
           let* u := next_url url j' in Return (u, j')) with
    | Return (u, j') =>
        GithubAPI.get_tag_loop net fuel self u j' (lookup self url :: h)
    | Raise e => (Raise e, lookup self url :: h)
    | OutOfFuel => (OutOfFuel, lookup self url :: h)
    | Unmodelled => (Unmodelled, lookup self url :: h)
    end.
Proof.
  intros E. simpl GithubAPI.get_tag_loop.
  unfold bind at 1. unfold lift at 1. rewrite E.
  unfold bind at 1. rewrite api_query_run. fold (lookup self url).
  destruct (settle url _) as [j' | | |]; try reflexivity.
  unfold next_url, bind, lift. simpl.
  destruct (getitem j' "object") as [o | | |]; try reflexivity. simpl.
  destruct (getitem o "type") as [ty | | |]; try reflexivity. simpl.
  destruct (eq_str ty "tag"); [| reflexivity].
  destruct (getitem o "url"); reflexivity.
Qed.

Lemma settle_answers {X : Type} `{Format X} (what : X) (h : history)
    (r : request) (j : json) :
  answers net h r j -> settle what (net h r) = Return j.
Proof.
  intros (resp & E & S & B). rewrite E. unfold settle. now rewrite S, B.
Qed.

(** Along a chain of tag objects that ends at a commit object the loop
    makes one lookup per object and returns the commit object. *)
Lemma loop_chain (hops : list json) :
  forall (fuel : nat) (url j0 last sha : json) (h : history),
    GithubAPI.not_yet_commit j0 = Return true ->
    reaches net self h url hops last ->
    commit_object sha last ->
    length hops < fuel ->
    GithubAPI.get_tag_loop net fuel self url j0 h
    = (Return last, rev (chain_requests self url hops) ++ h).
Proof.
  induction hops as [| u hops IH]; intros fuel url j0 last sha h E R C L;
    (destruct fuel as [| fuel]; [simpl in L; lia |]); rewrite (loop_step _ _ _ _ E).
  - simpl in R. rewrite (settle_answers _ _ _ _ R). simpl.
    rewrite (next_url_commit _ _ _ C). simpl.
    now rewrite (loop_done _ _ _ _ (not_yet_commit_commit _ _ C)).
  - destruct R as (j & A & T & R).
    rewrite (settle_answers _ _ _ _ A). simpl.
    rewrite (next_url_tag _ _ _ T). simpl.
    rewrite (IH fuel u j last sha _ (not_yet_commit_tag _ _ T) R C);
      [| simpl in L; lia].
    unfold chain_requests. simpl. now rewrite <- !app_assoc.
Qed.

End Dereference.

Lemma next_url_settled (url j : json) : settled (next_url url j).
Proof.
  unfold next_url.
  pose proof (getitem_settled j "object") as S1.
  destruct (getitem j "object") as [o | | |]; simpl; auto.
  pose proof (getitem_settled o "type") as S2.
  destruct (getitem o "type") as [ty | | |]; simpl; auto.
  destruct (eq_str ty "tag"); simpl; auto. apply getitem_settled.
Qed.

Lemma settle_settled {py : PyRuntime} {X : Type} `{Format X} (what : X)
    (r : option response) :
  settled (settle what r).
Proof.
  unfold settle. destruct r as [resp |]; simpl; auto.
  destruct (status_code resp =? 200)%Z; simpl; auto.
  destruct (body resp); simpl; auto.
Qed.

Section Resolution.
Context {py : PyRuntime}.
Variable net : remote.
Variable self : GithubAPI.t.

(** A run of [fuel] iterations makes at most [fuel] lookups, and exactly
    [fuel] when the loop has not ended by then. *)
Lemma loop_lookups (fuel : nat) :
  forall (url j : json) (h : history),
  exists rs,
    snd (GithubAPI.get_tag_loop net fuel self url j h) = rev rs ++ h
    /\ length rs <= fuel
    /\ (fst (GithubAPI.get_tag_loop net fuel self url j h) = OutOfFuel ->
        length rs = fuel).
Proof.
  induction fuel as [| fuel IH]; intros url j h;
    pose proof (not_yet_commit_settled j) as S;
    destruct (GithubAPI.not_yet_commit j) as [[|] | e | |] eqn:E;
    try contradiction;
    try (rewrite (loop_done _ _ _ _ _ _ E); exists []; simpl;
         split; [reflexivity | split; [lia | discriminate]]);
    try (rewrite (loop_raise _ _ _ _ _ _ _ E); exists []; simpl;
         split; [reflexivity | split; [lia | discriminate]]).
  - rewrite (loop_out_of_fuel _ _ _ _ _ E). exists []. simpl. auto.
  - rewrite (loop_step _ _ _ _ _ _ E).
    pose proof (settle_settled url (net h (lookup self url))) as S1.
    destruct (settle url (net h (lookup self url))) as [j' | e | |];
      try contradiction; cbn [obind].
    + pose proof (next_url_settled url j') as S2.
      destruct (next_url url j') as [u | e | |]; try contradiction; cbn [obind].
      * destruct (IH u j' (lookup self url :: h)) as (rs & R & L & F).
        exists (lookup self url :: rs). simpl. rewrite R, <- app_assoc.
        split; [reflexivity | split; [lia |]]. intros O. now rewrite (F O).
      * exists [lookup self url]. simpl.
        split; [reflexivity | split; [lia | discriminate]].
    + exists [lookup self url]. simpl.
      split; [reflexivity | split; [lia | discriminate]].
Qed.

(** Once the loop has ended, more iterations change nothing. *)
Lemma loop_stable (fuel : nat) :
  forall (url j : json) (h : history) (fuel' : nat),
    fst (GithubAPI.get_tag_loop net fuel self url j h) <> OutOfFuel ->
    fuel <= fuel' ->
    GithubAPI.get_tag_loop net fuel' self url j h
    = GithubAPI.get_tag_loop net fuel self url j h.
Proof.
  induction fuel as [| fuel IH]; intros url j h fuel' N L;
    pose proof (not_yet_commit_settled j) as S;
    destruct (GithubAPI.not_yet_commit j) as [[|] | e | |] eqn:E;
    try contradiction;
    try (now rewrite !(loop_done _ _ _ _ _ _ E));
    try (now rewrite !(loop_raise _ _ _ _ _ _ _ E)).
  - rewrite (loop_out_of_fuel _ _ _ _ _ E) in N. now contradiction N.
  - destruct fuel' as [| fuel']; [lia |].
    rewrite (loop_step _ _ _ _ _ _ E) in N. rewrite !(loop_step _ _ _ _ _ _ E).
    destruct (let* j' := settle url (net h (lookup self url)) in
              let* u := next_url url j' in Return (u, j'))
      as [[u j'] | e | |]; try reflexivity.
    apply IH; [exact N | lia].
Qed.

(** What one iteration reads in the response. *)
Lemma moves_not_yet_commit (url u j : json) :
  moves url u j -> GithubAPI.not_yet_commit j = Return true.
Proof.
  intros (o & ty & O & T & Nc & _). unfold GithubAPI.not_yet_commit.
  rewrite (getitem_in _ _ _ O). cbn [obind negb]. rewrite O. cbn [obind].
  rewrite T. cbn [obind]. now rewrite Nc.
Qed.

Lemma moves_next_url (url u j : json) : moves url u j -> next_url url j = Return u.
Proof.
  intros (o & ty & O & T & _ & [[Et U] | [Et ->]]); unfold next_url;
    rewrite O; cbn [obind]; rewrite T; cbn [obind]; rewrite Et;
    [exact U | reflexivity].
Qed.

Lemma next_url_checked (url u j : json) :
  next_url url j = Return u ->
  exists o ty, getitem j "object" = Return o /\ getitem o "type" = Return ty
               /\ GithubAPI.not_yet_commit j = Return (negb (eq_str ty "commit")).
Proof.
  unfold next_url. intros E.
  destruct (getitem j "object") as [o | | |] eqn:O; try discriminate.
  cbn [obind] in E.
  destruct (getitem o "type") as [ty | | |] eqn:T; try discriminate.
  exists o, ty. repeat split; auto.
  unfold GithubAPI.not_yet_commit. rewrite (getitem_in _ _ _ O).
  cbn [obind negb]. rewrite O. cbn [obind]. now rewrite T.
Qed.

Lemma moves_intro (url u j : json) :
  GithubAPI.not_yet_commit j = Return true ->
  next_url url j = Return u ->
  moves url u j.
Proof.
  intros Ny Nx. destruct (next_url_checked _ _ _ Nx) as (o & ty & O & T & C).
  rewrite C in Ny. injection Ny as Ny. apply negb_true_iff in Ny.
  exists o, ty. repeat split; auto.
  unfold next_url in Nx. rewrite O in Nx. cbn [obind] in Nx.
  rewrite T in Nx. cbn [obind] in Nx.
  destruct (eq_str ty "tag"); [left | right]; split; auto.
  now inversion Nx.
Qed.

Lemma malformed_next_url (url j : json) (e : exn) :
  malformed j e <-> next_url url j = Raise e.
Proof.
  unfold malformed, next_url. split.
  - intros [O | (o & O & [T | (ty & T & Et & U)])].
    + now rewrite O.
    + rewrite O. cbn [obind]. now rewrite T.
    + rewrite O. cbn [obind]. rewrite T. cbn [obind]. rewrite Et. exact U.
  - intros E.
    destruct (getitem j "object") as [o | e1 | |] eqn:O; try discriminate;
      cbn [obind] in E; [| left; exact E].
    right. exists o. split; [reflexivity |].
    destruct (getitem o "type") as [ty | e2 | |] eqn:T; try discriminate;
      cbn [obind] in E; [| left; exact E].
    right. exists ty. destruct (eq_str ty "tag"); [| discriminate].
    repeat split; auto.
Qed.

Lemma tag_object_moves (url u j : json) : tag_object u j -> moves url u j.
Proof.
  intros (o & O & T & U). exists o, (JStr "tag"). repeat split; auto.
Qed.

Lemma not_yet_commit_false (j : json) :
  GithubAPI.not_yet_commit j = Return false ->
  exists o, getitem j "object" = Return o
            /\ getitem o "type" = Return (JStr "commit").
Proof.
  unfold GithubAPI.not_yet_commit. intros E.
  destruct (py_in "object" j) as [[|] | | |]; try discriminate.
  cbn [obind negb] in E.
  destruct (getitem j "object") as [o | | |]; try discriminate.
  cbn [obind] in E.
  destruct (getitem o "type") as [ty | | |] eqn:T; try discriminate.
  cbn [obind] in E. injection E as E. apply negb_false_iff in E.
  exists o. split; [reflexivity |].
  destruct ty; try discriminate. unfold eq_str in E.
  apply String.eqb_eq in E. now subst.
Qed.

Lemma fails_settle {X : Type} `{Format X} (h : history) (r : request)
    (what : X) (e : exn) :
  fails net h r what e <-> settle what (net h r) = Raise e.
Proof.
  unfold fails, settle. split.
  - intros [[E ->] | (resp & E & [[Ns ->] | [S [Bd ->]]])]; rewrite E.
    + reflexivity.
    + apply Z.eqb_neq in Ns. now rewrite Ns.
    + rewrite S, Bd. reflexivity.
  - destruct (net h r) as [resp |]; [| intros E; left; split; congruence].
    intros E. right. exists resp. split; [reflexivity |].
    destruct (status_code resp =? 200)%Z eqn:S.
    + apply Z.eqb_eq in S. right.
      destruct (body resp); [discriminate |]. repeat split; congruence.
    + apply Z.eqb_neq in S. left. split; congruence.
Qed.

Lemma reaches_follows (hops : list json) :
  forall (url last : json) (h : history),
    reaches net self h url hops last -> follows net self h url hops last.
Proof.
  induction hops as [| u hops IH]; intros url last h R; [exact R |].
  destruct R as (j & A & T & R). exists j.
  split; [exact A |]. split; [now apply tag_object_moves | now apply IH].
Qed.

(** Along lookups that are answered and lead to a response of type commit
    the loop returns that response. *)
Lemma loop_follows (hops : list json) :
  forall (fuel : nat) (url j0 last : json) (h : history),
    GithubAPI.not_yet_commit j0 = Return true ->
    follows net self h url hops last ->
    GithubAPI.not_yet_commit last = Return false ->
    length hops < fuel ->
    GithubAPI.get_tag_loop net fuel self url j0 h
    = (Return last, rev (chain_requests self url hops) ++ h).
Proof.
  induction hops as [| u hops IH]; intros fuel url j0 last h E F C L;
    (destruct fuel as [| fuel]; [simpl in L; lia |]);
    rewrite (loop_step _ _ _ _ _ _ E).
  - simpl in F. rewrite (settle_answers _ _ _ _ _ F). cbn [obind].
    destruct (not_yet_commit_false _ C) as (o & O & T).
    assert (Nx : next_url url last = Return url)
      by (unfold next_url; rewrite O; cbn [obind]; now rewrite T).
    rewrite Nx. cbn [obind]. now rewrite (loop_done _ _ _ _ _ _ C).
  - destruct F as (j & A & Mv & F).
    rewrite (settle_answers _ _ _ _ _ A). cbn [obind].
    rewrite (moves_next_url _ _ _ Mv). cbn [obind].
    rewrite (IH fuel u j last _ (moves_not_yet_commit _ _ _ Mv) F C);
      [| simpl in L; lia].
    unfold chain_requests. simpl. now rewrite <- !app_assoc.
Qed.

(** Along lookups of which the last one fails, or is answered with a
    malformed response, the loop raises the exception of that lookup. *)
Lemma loop_breaks (hops : list json) :
  forall (fuel : nat) (url j0 : json) (e : exn) (h : history),
    GithubAPI.not_yet_commit j0 = Return true ->
    breaks net self h url hops e ->
    length hops < fuel ->
    GithubAPI.get_tag_loop net fuel self url j0 h
    = (Raise e, rev (chain_requests self url hops) ++ h).
Proof.
  induction hops as [| u hops IH]; intros fuel url j0 e h E Bk L;
    (destruct fuel as [| fuel]; [simpl in L; lia |]);
    rewrite (loop_step _ _ _ _ _ _ E).
  - destruct Bk as [Fl | (j & A & Mf)].
    + apply fails_settle in Fl. now rewrite Fl.
    + rewrite (settle_answers _ _ _ _ _ A). cbn [obind].
      apply (malformed_next_url url) in Mf. now rewrite Mf.
  - destruct Bk as (j & A & Mv & Bk).
    rewrite (settle_answers _ _ _ _ _ A). cbn [obind].
    rewrite (moves_next_url _ _ _ Mv). cbn [obind].
    rewrite (IH fuel u j e _ (moves_not_yet_commit _ _ _ Mv) Bk);
      [| simpl in L; lia].
    unfold chain_requests. simpl. now rewrite <- !app_assoc.
Qed.

Lemma settle_answers_inv {X : Type} `{Format X} (what : X) (h : history)
    (r : request) (j : json) :
  settle what (net h r) = Return j -> answers net h r j.
Proof. intros E. exact (settle_inv_return _ _ _ E). Qed.

(** Whatever the loop returns, it got at the end of such lookups. *)
Lemma loop_return_inv (fuel : nat) :
  forall (url j0 last : json) (h h' : history),
    GithubAPI.not_yet_commit j0 = Return true ->
    GithubAPI.get_tag_loop net fuel self url j0 h = (Return last, h') ->
    exists hops,
      follows net self h url hops last
      /\ GithubAPI.not_yet_commit last = Return false
      /\ h' = rev (chain_requests self url hops) ++ h
      /\ length hops < fuel.
Proof.
  induction fuel as [| fuel IH]; intros url j0 last h h' E R.
  - rewrite (loop_out_of_fuel _ _ _ _ _ E) in R. discriminate.
  - rewrite (loop_step _ _ _ _ _ _ E) in R.
    destruct (settle url (net h (lookup self url))) as [j | | |] eqn:S;
      try discriminate. cbn [obind] in R.
    apply settle_answers_inv in S.
    destruct (next_url url j) as [u | | |] eqn:Nx; try discriminate.
    cbn [obind] in R.
    destruct (next_url_checked _ _ _ Nx) as (o & ty & _ & _ & C).
    destruct (eq_str ty "commit"); cbn [negb] in C.
    + rewrite (loop_done _ _ _ _ _ _ C) in R. injection R as -> <-.
      exists []. repeat split; auto. simpl. lia.
    + destruct (IH u j last _ h' C R) as (hops & F & D & -> & L).
      exists (u :: hops). split.
      * exists j. repeat split; auto. now apply moves_intro.
      * repeat split; auto; [| simpl; lia].
        unfold chain_requests. simpl. now rewrite <- !app_assoc.
Qed.

(** Whatever the loop raises, a lookup failed with it or was answered with
    a malformed response. *)
Lemma loop_raise_inv (fuel : nat) :
  forall (url j0 : json) (e : exn) (h h' : history),
    GithubAPI.not_yet_commit j0 = Return true ->
    GithubAPI.get_tag_loop net fuel self url j0 h = (Raise e, h') ->
    exists hops,
      breaks net self h url hops e
      /\ h' = rev (chain_requests self url hops) ++ h
      /\ length hops < fuel.
Proof.
  induction fuel as [| fuel IH]; intros url j0 e h h' E R.
  - rewrite (loop_out_of_fuel _ _ _ _ _ E) in R. discriminate.
  - rewrite (loop_step _ _ _ _ _ _ E) in R.
    destruct (settle url (net h (lookup self url))) as [j | e1 | |] eqn:S;
      try discriminate; cbn [obind] in R.
    2: { injection R as -> <-. exists []. split; [| split; [reflexivity | simpl; lia]].
         left. now apply fails_settle. }
    apply settle_answers_inv in S.
    destruct (next_url url j) as [u | e2 | |] eqn:Nx; try discriminate;
      cbn [obind] in R.
    2: { injection R as -> <-. exists []. split; [| split; [reflexivity | simpl; lia]].
         right. exists j. split; [exact S |]. now apply (malformed_next_url url). }
    destruct (next_url_checked _ _ _ Nx) as (o & ty & _ & _ & C).
    destruct (eq_str ty "commit"); cbn [negb] in C.
    + rewrite (loop_done _ _ _ _ _ _ C) in R. discriminate.
    + destruct (IH u j e _ h' C R) as (hops & Bk & -> & L).
      exists (u :: hops). split.
      * exists j. repeat split; auto. now apply moves_intro.
      * split; [| simpl; lia].
        unfold chain_requests. simpl. now rewrite <- !app_assoc.
Qed.

(** C5, as the code has it: each iteration of the loop makes one lookup
    and the loop ends when a lookup fails or returns an object of type
    commit.  Cut after [fuel] iterations it has made at most [fuel]
    lookups, exactly [fuel] if it has not ended, and once it has ended more
    iterations change nothing; through [k] annotated tag objects that lead
    to a commit object it ends after [k + 1] lookups.  When, after [k]
    answered lookups, a lookup fails (no response, a status other than 200,
    a body that is no JSON) or is answered with a malformed response, the
    loop ends there, after [k + 1] lookups, raising the exception of that
    lookup.  These are its only ends: what it returns is the response of
    type commit at the end of answered lookups, and what it raises is the
    exception of such a lookup.  The bound is that of the remote's
    responses. *)
Theorem dereference_loop_lookups (fuel : nat) (url j : json) (h : history) :
  (exists rs,
     snd (GithubAPI.get_tag_loop net fuel self url j h) = rev rs ++ h
     /\ length rs <= fuel
     /\ (fst (GithubAPI.get_tag_loop net fuel self url j h) = OutOfFuel ->
         length rs = fuel))
  /\ (fst (GithubAPI.get_tag_loop net fuel self url j h) <> OutOfFuel ->
      forall fuel', fuel <= fuel' ->
        GithubAPI.get_tag_loop net fuel' self url j h
        = GithubAPI.get_tag_loop net fuel self url j h)
  /\ (forall hops last sha,
        GithubAPI.not_yet_commit j = Return true ->
        reaches net self h url hops last ->
        commit_object sha last ->
        length hops < fuel ->
        GithubAPI.get_tag_loop net fuel self url j h
        = (Return last, rev (chain_requests self url hops) ++ h)
        /\ length (chain_requests self url hops) = S (length hops))
  /\ (forall hops e,
        GithubAPI.not_yet_commit j = Return true ->
        breaks net self h url hops e ->
        length hops < fuel ->
        GithubAPI.get_tag_loop net fuel self url j h
        = (Raise e, rev (chain_requests self url hops) ++ h)
        /\ length (chain_requests self url hops) = S (length hops))
  /\ (forall last h',
        GithubAPI.not_yet_commit j = Return true ->
        GithubAPI.get_tag_loop net fuel self url j h = (Return last, h') ->
        exists hops,
          follows net self h url hops last
          /\ (exists o, getitem last "object" = Return o
                        /\ getitem o "type" = Return (JStr "commit"))
          /\ h' = rev (chain_requests self url hops) ++ h
          /\ length hops < fuel)
  /\ (forall e h',
        GithubAPI.not_yet_commit j = Return true ->
        GithubAPI.get_tag_loop net fuel self url j h = (Raise e, h') ->
        exists hops,
          breaks net self h url hops e
          /\ h' = rev (chain_requests self url hops) ++ h
          /\ length hops < fuel).
Proof.
  split; [apply loop_lookups |].
  split; [intros N fuel' L; now apply loop_stable |].
  split; [| split; [| split]].
  - intros hops last sha E R C L. split.
    + exact (loop_chain net self hops fuel url j last sha h E R C L).
    + unfold chain_requests. simpl. now rewrite length_map.
  - intros hops e E Bk L. split.
    + exact (loop_breaks hops fuel url j e h E Bk L).
    + unfold chain_requests. simpl. now rewrite length_map.
  - intros last h' E R.
    destruct (loop_return_inv fuel url j last h h' E R) as (hops & F & C & Hh & L).
    exists hops. repeat split; auto. now apply not_yet_commit_false.
  - intros e h' E R. exact (loop_raise_inv fuel url j e h h' E R).
Qed.

(** After the loop: the commit named by the object is looked up and the
    [Tag] is built from the response. *)
Lemma get_tag_after_loop {N : Type} `{Format N} (fuel : nat) (name : N)
    (h h1 : history) (last sha : json) :
  GithubAPI.get_tag_loop net fuel self
    (JStr (GithubAPI.tag_ref_url self name)) (JDict []) h = (Return last, h1) ->
  commit_object sha last ->
  GithubAPI.get_tag net fuel self name h
  = (let* commit_json :=
       settle (GithubAPI.get_commit_url self sha)
              (net h1 (lookup self (GithubAPI.get_commit_url self sha))) in
     let* commit := Commit.init_from_api commit_json in
     Return (Tag.Build_t name commit),
     lookup self (GithubAPI.get_commit_url self sha) :: h1).
Proof.
  intros L (o & O & _ & S). unfold GithubAPI.get_tag.
  rewrite (bind_return _ _ _ _ _ L).
  unfold bind at 1, lift at 1. rewrite O.
  unfold bind at 1, lift at 1. rewrite S.
  unfold bind at 1. rewrite api_query_run.
  fold (lookup self (GithubAPI.get_commit_url self sha)).
  destruct (settle _ _) as [cj | | |]; try reflexivity.
  unfold bind, lift, ret. cbn [obind].
  destruct (Commit.init_from_api cj); reflexivity.
Qed.

(** C4: for a tag name whose reference leads through annotated tag
    objects, [get_tag] looks up each object at the URL the one before it
    gave, until an object of type commit is reached; it then looks up the
    commit of that object's sha, and the [Tag] it returns carries the
    [Commit] built from that response, whose sha is the response's.
    Conversely, every [Tag] that [get_tag] returns was got this way: all
    its lookups were answered with status 200, the last object of the loop
    is of type commit, and the [Commit] of the [Tag] is built from the
    response to the lookup of the commit of that object's sha, never from
    an object that is not of type commit.  When a lookup fails, of an
    object or of the commit, [get_tag] raises the exception of that lookup
    and returns no [Tag]. *)
Theorem get_tag_dereferences {N : Type} `{Format N} (fuel : nat) (name : N)
    (h : history) :
  (forall (hops : list json) (last sha commit_json : json) (c : Commit.t),
     reaches net self h (JStr (GithubAPI.tag_ref_url self name)) hops last ->
     commit_object sha last ->
     answers net
       (rev (chain_requests self (JStr (GithubAPI.tag_ref_url self name)) hops)
          ++ h)
       (lookup self (GithubAPI.get_commit_url self sha)) commit_json ->
     Commit.init_from_api commit_json = Return c ->
     length hops < fuel ->
     GithubAPI.get_tag net fuel self name h
     = (Return (Tag.Build_t name c),
        lookup self (GithubAPI.get_commit_url self sha)
          :: rev (chain_requests self
                    (JStr (GithubAPI.tag_ref_url self name)) hops)
          ++ h)
     /\ getitem commit_json "sha" = Return (Commit.sha c))
  /\ (forall (t : Tag.t N) (h' : history),
        GithubAPI.get_tag net fuel self name h = (Return t, h') ->
        exists hops last sha commit_json,
          follows net self h (JStr (GithubAPI.tag_ref_url self name)) hops last
          /\ commit_object sha last
          /\ answers net
               (rev (chain_requests self
                       (JStr (GithubAPI.tag_ref_url self name)) hops) ++ h)
               (lookup self (GithubAPI.get_commit_url self sha)) commit_json
          /\ Commit.init_from_api commit_json = Return (Tag.commit t)
          /\ getitem commit_json "sha" = Return (Commit.sha (Tag.commit t))
          /\ Tag.name t = name
          /\ h' = lookup self (GithubAPI.get_commit_url self sha)
                    :: rev (chain_requests self
                              (JStr (GithubAPI.tag_ref_url self name)) hops)
                    ++ h
          /\ length hops < fuel)
  /\ (forall (hops : list json) (e : exn),
        breaks net self h (JStr (GithubAPI.tag_ref_url self name)) hops e ->
        length hops < fuel ->
        GithubAPI.get_tag net fuel self name h
        = (Raise e,
           rev (chain_requests self
                  (JStr (GithubAPI.tag_ref_url self name)) hops) ++ h))
  /\ (forall (hops : list json) (last sha : json) (e : exn),
        follows net self h (JStr (GithubAPI.tag_ref_url self name)) hops last ->
        commit_object sha last ->
        fails net
          (rev (chain_requests self
                  (JStr (GithubAPI.tag_ref_url self name)) hops) ++ h)
          (lookup self (GithubAPI.get_commit_url self sha))
          (GithubAPI.get_commit_url self sha) e ->
        length hops < fuel ->
        GithubAPI.get_tag net fuel self name h
        = (Raise e,
           lookup self (GithubAPI.get_commit_url self sha)
             :: rev (chain_requests self
                       (JStr (GithubAPI.tag_ref_url self name)) hops)
             ++ h)).
Proof.
  split; [| split; [| split]].
  - intros hops last sha commit_json c R C A I L. split.
    + rewrite (get_tag_after_loop fuel name h _ last sha
                 (loop_chain net self hops fuel _ _ last sha h
                    not_yet_commit_start R C L) C).
      rewrite (settle_answers _ _ _ _ _ A). cbn [obind]. now rewrite I.
    + clear - I. unfold Commit.init_from_api in I.
      repeat (apply obind_inv_return in I; destruct I as (? & ? & I)).
      inversion I; subst; simpl. assumption.
  - intros t h' E. unfold GithubAPI.get_tag in E.
    apply bind_inv_return in E. destruct E as (last & h1 & Lp & E).
    destruct (loop_return_inv fuel _ _ last h h1 not_yet_commit_start Lp)
      as (hops & F & D & -> & L).
    apply bind_inv_return in E. destruct E as (o & h2 & O & E).
    apply lift_inv_return in O. destruct O as (O & ->).
    apply bind_inv_return in E. destruct E as (sha & h3 & S & E).
    apply lift_inv_return in S. destruct S as (S & ->).
    apply bind_inv_return in E. destruct E as (commit_json & h4 & Q & E).
    rewrite api_query_run in Q. injection Q as Q <-.
    apply settle_answers_inv in Q.
    apply bind_inv_return in E. destruct E as (c & h5 & I & E).
    apply lift_inv_return in I. destruct I as (I & ->).
    injection E as <- <-.
    exists hops, last, sha, commit_json.
    split; [exact F |]. split.
    { destruct (not_yet_commit_false _ D) as (o' & O' & T).
      rewrite O in O'. injection O' as <-. exists o. auto. }
    split; [exact Q |]. split; [exact I |]. split.
    { clear - I. unfold Commit.init_from_api in I.
      repeat (apply obind_inv_return in I; destruct I as (? & ? & I)).
      inversion I; subst; simpl. assumption. }
    repeat split; auto.
  - intros hops e Bk L. unfold GithubAPI.get_tag. apply bind_raise.
    exact (loop_breaks hops fuel _ _ e h not_yet_commit_start Bk L).
  - intros hops last sha e F C Fl L.
    rewrite (get_tag_after_loop fuel name h _ last sha
               (loop_follows hops fuel _ _ last h not_yet_commit_start F
                  (not_yet_commit_commit _ _ C) L) C).
    apply fails_settle in Fl. now rewrite Fl.
Qed.

(** C6, as the code has it: when the tag list of the repository is empty,
    [get_latest_tag] fails at [tags_json[0]] with Python's [IndexError],
    which is not the module's [GitHubError]; the tag list is the one lookup
    made. *)
Theorem latest_tag_of_no_tags (fuel : nat) (h : history) :
  answers net h (lookup self (GithubAPI.tags_url self)) (JList []) ->
  GithubAPI.get_latest_tag net fuel self h
  = (Raise IndexError, lookup self (GithubAPI.tags_url self) :: h)
  /\ is_GitHubError IndexError = false.
Proof.
  intros A. split; [| reflexivity]. unfold GithubAPI.get_latest_tag.
  rewrite (bind_return _ _ _ _ _ (api_query_answers net self _ None h _ A)).
  reflexivity.
Qed.

End Resolution.

(** ** Building a [Commit] *)

Lemma getitem_raise (v : json) (k : string) (e : exn) :
  getitem v k = Raise e -> is_GitHubError e = false /\ is_lookup_error e = true.
Proof.
  destruct v; simpl; intros E; try (inversion E; subst; now split).
  destruct (dict_get k d); inversion E; subst; now split.
Qed.

(** One subscription of a chain of [let*]: it returns [x], or raises the
    error of a failed subscription, which settles the goal. *)
Ltac on_getitem v k x H :=
  let S := fresh "S" in
  pose proof (getitem_settled v k) as S;
  destruct (getitem v k) as [x | ? | |] eqn:H; try contradiction; clear S;
  cbn [obind];
  try (destruct (getitem_raise _ _ _ H); split; [assumption | left; assumption]).

Section CommitFacts.
Context {py : PyRuntime}.

Lemma parse_datetime_string_raise (d : json) (e : exn) :
  parse_datetime_string d = Raise e -> is_GitHubError e = false.
Proof.
  unfold parse_datetime_string.
  destruct d; intros E; try (now inversion E).
  destruct (fromisoformat _); now inversion E.
Qed.

Lemma parse_datetime_string_settled (d : json) : settled (parse_datetime_string d).
Proof.
  unfold parse_datetime_string. destruct d; simpl; auto.
  destruct (fromisoformat _); simpl; auto.
Qed.

(** A [Commit] is built only from a response that has all the fields read,
    the top-level [author] being an object with a [login]. *)
Lemma init_from_api_return (commit_json : json) (c : Commit.t) :
  Commit.init_from_api commit_json = Return c ->
  lacks_author commit_json = false
  /\ getitem commit_json "sha" = Return (Commit.sha c)
  /\ (exists cj a d,
        getitem commit_json "commit" = Return cj
        /\ getitem cj "author" = Return a
        /\ getitem a "date" = Return d
        /\ parse_datetime_string d = Return (Commit.datetime c)
        /\ getitem cj "message" = Return (Commit.message c))
  /\ (exists au,
        getitem commit_json "author" = Return au
        /\ au <> JNull
        /\ getitem au "login" = Return (Commit.author c)).
Proof.
  unfold Commit.init_from_api. intros I.
  apply obind_inv_return in I. destruct I as (cj & Hc & I).
  apply obind_inv_return in I. destruct I as (a & Ha & I).
  apply obind_inv_return in I. destruct I as (d & Hd & I).
  apply obind_inv_return in I. destruct I as (s & Hs & I).
  apply obind_inv_return in I. destruct I as (t & Ht & I).
  apply obind_inv_return in I. destruct I as (cj' & Hc' & I).
  apply obind_inv_return in I. destruct I as (m & Hm & I).
  apply obind_inv_return in I. destruct I as (au & Hau & I).
  apply obind_inv_return in I. destruct I as (l & Hl & I).
  inversion I; subst; simpl. clear I.
  rewrite Hc in Hc'. inversion Hc'; subst cj'.
  assert (N : au <> JNull) by (intros ->; discriminate).
  split.
  - destruct commit_json; try discriminate. simpl in *.
    destruct (dict_get "author" d0) as [x |]; [| discriminate].
    inversion Hau; subst. destruct au; try reflexivity. contradiction.
  - split; [exact Hs |]. split.
    + exists cj, a, d. auto.
    + exists au. auto.
Qed.

(** What it raises otherwise. *)
Lemma init_from_api_outcome (commit_json : json) :
  match Commit.init_from_api commit_json with
  | Return _ => True
  | Raise e => commit_failure commit_json e
  | OutOfFuel | Unmodelled => False
  end.
Proof.
  unfold Commit.init_from_api, commit_failure.
  on_getitem commit_json "commit" cj Hc.
  on_getitem cj "author" a Ha.
  on_getitem a "date" d Hd.
  on_getitem commit_json "sha" s Hs.
  pose proof (parse_datetime_string_settled d) as S.
  destruct (parse_datetime_string d) as [t | e | |] eqn:Ht; try contradiction;
    cbn [obind].
  2: { split; [exact (parse_datetime_string_raise _ _ Ht) |].
       right. exists cj, a, d. auto. }
  on_getitem cj "message" m Hm.
  on_getitem commit_json "author" au Hau.
  on_getitem au "login" l Hl.
  exact I.
Qed.

(** Without a top-level author no [Commit] is built. *)
Lemma init_from_api_lacks_author (commit_json : json) :
  lacks_author commit_json = true ->
  exists e, Commit.init_from_api commit_json = Raise e
            /\ commit_failure commit_json e.
Proof.
  intros L. pose proof (init_from_api_outcome commit_json) as O.
  destruct (Commit.init_from_api commit_json) as [c | e | |] eqn:I;
    try contradiction.
  - apply init_from_api_return in I. destruct I as (I & _). congruence.
  - exists e. auto.
Qed.

(** The list comprehension of [get_commits_between] stops at the first
    response that builds no [Commit]. *)
Lemma omap_init_from_api (l : list json) :
  match omap Commit.init_from_api l with
  | Return _ => Forall (fun c => lacks_author c = false) l
  | Raise e => exists c, In c l /\ commit_failure c e
  | OutOfFuel | Unmodelled => False
  end.
Proof.
  induction l as [| x l IH]; simpl; [constructor |].
  pose proof (init_from_api_outcome x) as O.
  destruct (Commit.init_from_api x) as [c | e | |] eqn:I; try contradiction;
    cbn [obind].
  - destruct (omap Commit.init_from_api l) as [cs | e | |]; try contradiction;
      cbn [obind].
    + constructor; [| exact IH].
      apply init_from_api_return in I. now destruct I.
    + destruct IH as (c' & Hin & F). exists c'. auto.
  - exists x. auto.
Qed.

End CommitFacts.

Section BuildingCommits.
Context {py : PyRuntime}.
Variable net : remote.
Variable self : GithubAPI.t.

Lemma get_last_commit_run (branch : string) (h : history) (j c0 : json) :
  answers net h
    (get_request self (GithubAPI.commits_url self) (Some [("sha", branch)])) j ->
  getitem0 j = Return c0 ->
  GithubAPI.get_last_commit net self branch h
  = (Commit.init_from_api c0,
     get_request self (GithubAPI.commits_url self) (Some [("sha", branch)]) :: h).
Proof.
  intros A G. unfold GithubAPI.get_last_commit.
  rewrite (bind_return _ _ _ _ _ (api_query_answers net self _ _ h _ A)).
  unfold bind, lift. rewrite G. now destruct (Commit.init_from_api c0).
Qed.

Lemma get_commits_between_run (first_commit last_commit : Commit.t)
    (h : history) (j cs : json) (l : list json) :
  answers net h
    (lookup self (GithubAPI.compare_commits_url self first_commit last_commit)) j ->
  getitem j "commits" = Return cs ->
  py_iter cs = Return l ->
  GithubAPI.get_commits_between net self first_commit last_commit h
  = (omap Commit.init_from_api l,
     lookup self (GithubAPI.compare_commits_url self first_commit last_commit)
       :: h).
Proof.
  intros A G P. unfold GithubAPI.get_commits_between.
  rewrite (bind_return _ _ _ _ _ (api_query_answers net self _ None h _ A)).
  unfold bind at 1, lift at 1. rewrite (getitem_in _ _ _ G). cbn [negb].
  unfold bind, lift. rewrite G, P.
  now destruct (omap Commit.init_from_api l).
Qed.

(** C10, as the code has it: a [Commit] is built only from a response that
    holds [sha], [commit.author.date], [commit.message] and a top-level
    [author] that is not null and has a [login].  From a response whose
    top-level [author] is null or absent, [get_tag], [get_last_commit] and
    [get_commits_between] fail with an exception that is not [GitHubError]:
    the error of a failed subscription ([KeyError], [TypeError]) or, when
    the response's date is there and is no ISO date, the error that parsing
    it raises first. *)
Theorem commit_needs_author :
  (forall commit_json c,
     Commit.init_from_api commit_json = Return c ->
     lacks_author commit_json = false
     /\ getitem commit_json "sha" = Return (Commit.sha c)
     /\ (exists cj a d,
           getitem commit_json "commit" = Return cj
           /\ getitem cj "author" = Return a
           /\ getitem a "date" = Return d
           /\ parse_datetime_string d = Return (Commit.datetime c)
           /\ getitem cj "message" = Return (Commit.message c))
     /\ (exists au,
           getitem commit_json "author" = Return au
           /\ au <> JNull
           /\ getitem au "login" = Return (Commit.author c)))
  /\ (forall commit_json,
        lacks_author commit_json = true ->
        exists e, Commit.init_from_api commit_json = Raise e
                  /\ commit_failure commit_json e)
  /\ (forall (fuel : nat) (name : string) hops last sha commit_json h,
        reaches net self h (JStr (GithubAPI.tag_ref_url self name)) hops last ->
        commit_object sha last ->
        answers net
          (rev (chain_requests self (JStr (GithubAPI.tag_ref_url self name)) hops)
             ++ h)
          (lookup self (GithubAPI.get_commit_url self sha)) commit_json ->
        lacks_author commit_json = true ->
        length hops < fuel ->
        exists e, fst (GithubAPI.get_tag net fuel self name h) = Raise e
                  /\ commit_failure commit_json e)
  /\ (forall branch j c0 h,
        answers net h
          (get_request self (GithubAPI.commits_url self) (Some [("sha", branch)]))
          j ->
        getitem0 j = Return c0 ->
        lacks_author c0 = true ->
        exists e, fst (GithubAPI.get_last_commit net self branch h) = Raise e
                  /\ commit_failure c0 e)
  /\ (forall first_commit last_commit j cs l c h,
        answers net h
          (lookup self
             (GithubAPI.compare_commits_url self first_commit last_commit)) j ->
        getitem j "commits" = Return cs ->
        py_iter cs = Return l ->
        In c l ->
        lacks_author c = true ->
        exists e c',
          fst (GithubAPI.get_commits_between net self first_commit last_commit h)
          = Raise e
          /\ In c' l /\ commit_failure c' e).
Proof.
  split; [exact init_from_api_return |].
  split; [exact init_from_api_lacks_author |].
  split; [| split].
  - intros fuel name hops last sha commit_json h R C A L F.
    destruct (init_from_api_lacks_author _ L) as (e & I & CF).
    exists e. split; [| exact CF].
    rewrite (get_tag_after_loop net self fuel name h _ last sha
               (loop_chain net self hops fuel _ _ last sha h
                  not_yet_commit_start R C F) C).
    rewrite (settle_answers _ _ _ _ _ A). cbn [obind fst]. now rewrite I.
  - intros branch j c0 h A G L.
    destruct (init_from_api_lacks_author _ L) as (e & I & CF).
    exists e. split; [| exact CF].
    now rewrite (get_last_commit_run branch h j c0 A G), I.
  - intros first_commit last_commit j cs l c h A G P Hin L.
    rewrite (get_commits_between_run first_commit last_commit h j cs l A G P).
    cbn [fst]. pose proof (omap_init_from_api l) as O.
    destruct (omap Commit.init_from_api l) as [out | e | |]; try contradiction.
    + rewrite Forall_forall in O. rewrite (O c Hin) in L. discriminate.
    + destruct O as (c' & Hin' & CF). exists e, c'. auto.
Qed.

End BuildingCommits.

Section SearchReturns.
Context {py : PyRuntime}.
Variable net : remote.
Variable self : GithubAPI.t.

Lemma decorate_ints (prs : list PullRequest.t) :
  Forall (fun pr => exists z, PullRequest.number pr = JInt z) prs ->
  exists l, decorate prs = Some l.
Proof.
  induction 1 as [| pr prs (z & Ez) _ (l & El)]; simpl; [now exists [] |].
  unfold int_key. rewrite Ez, El. now eexists.
Qed.

(** The search returns a list whenever the response is a 200 whose nodes
    are pull requests with integer numbers. *)
Lemma get_prs_returns (first_commit last_commit : Commit.t) (h : history)
    (j : json) (nodes : list json) (raw : list PullRequest.t) :
  answers net h (search_request self first_commit last_commit) j ->
  nodes_of j = Return nodes ->
  omap GithubAPI.pull_request_of nodes = Return raw ->
  Forall (fun pr => exists z, PullRequest.number pr = JInt z) raw ->
  exists prs,
    GithubAPI.get_prs_merged_between_commits net self first_commit last_commit h
    = (Return prs, search_request self first_commit last_commit :: h)
    /\ Permutation raw prs.
Proof.
  intros A N O I. destruct (decorate_ints raw I) as (l & D).
  exists (map snd (stable_sort l)). split.
  - rewrite get_prs_run, (settle_answers _ _ _ _ _ A). cbn [obind].
    unfold decode_prs. rewrite N. cbn [obind]. rewrite O. cbn [obind].
    unfold sorted_by_number. now rewrite D.
  - apply sorted_by_number_perm. unfold sorted_by_number. now rewrite D.
Qed.

End SearchReturns.

(** ** The functions on the sample repository *)

Section OnSample.
#[local] Existing Instance GithubClock.runtime.

(** C1: with no previous tag name, [fetch_changes] resolves the latest tag,
    [v2.0] on commit [def], and then passes the [Tag] it got, not its name,
    to [get_tag]: the reference looked up is the [repr] of the [Tag], the
    forge answers 404, and [fetch_changes] raises [GitHubError] without
    searching pull requests from the commit of the latest tag. *)
Theorem fetch_changes_without_previous_tag :
  GithubAPI.get_latest_tag Sample.forge 5 Sample.api []
  = (Return SampleCommits.latest,
     SampleCommits.v2_lookups ++ [SampleCommits.tags_lookup])
  /\ fetch_changes Sample.forge 5 Sample.api None None "master" []
     = (Raise (GithubAPI.query_failed 404
                 (GithubAPI.tag_ref_url Sample.api SampleCommits.latest)),
        lookup Sample.api (GithubAPI.tag_ref_url Sample.api SampleCommits.latest)
          :: SampleCommits.v2_lookups ++ [SampleCommits.tags_lookup])
  /\ GithubAPI.tag_ref_url Sample.api SampleCommits.latest
     = "https://api.github.com/repos/OWNER/REPO/git/refs/tags/"
         +++ "Tag(name='v2.0', commit=Commit(sha='def', "
         +++ "datetime=datetime.datetime(2023, 2, 1, 0, 0, "
         +++ "tzinfo=datetime.timezone.utc), "
         +++ "message='Release 2.0', author='bob'))"
  /\ fst (fetch_changes Sample.forge 5 Sample.api (Some "v2.0") None "master" [])
     = Return [SampleCommits.pr5; SampleCommits.pr12].
Proof. repeat split; vm_compute; reflexivity. Qed.

(** The forge reports pull request 5 twice, and the list returned holds it
    twice. *)
Lemma prs_twice :
  fst (GithubAPI.get_prs_merged_between_commits Sample.forge_twice Sample.api
         SampleCommits.abc SampleCommits.def [])
  = Return [SampleCommits.pr5; SampleCommits.pr5; SampleCommits.pr12]
  /\ ~ NoDup (map PullRequest.number
                [SampleCommits.pr5; SampleCommits.pr5; SampleCommits.pr12]).
Proof.
  split; [vm_compute; reflexivity |].
  intros N. inversion N as [| x l Hin _]; subst. apply Hin. now left.
Qed.

Lemma prs_sorted_witness :
  GithubAPI.get_prs_merged_between_commits Sample.forge Sample.api
    SampleCommits.abc SampleCommits.def []
  = (Return [SampleCommits.pr5; SampleCommits.pr12],
     [search_request Sample.api SampleCommits.abc SampleCommits.def])
  /\ StronglySorted number_le [SampleCommits.pr5; SampleCommits.pr12].
Proof.
  assert (E : GithubAPI.get_prs_merged_between_commits Sample.forge Sample.api
                SampleCommits.abc SampleCommits.def []
              = (Return [SampleCommits.pr5; SampleCommits.pr12],
                 [search_request Sample.api SampleCommits.abc SampleCommits.def]))
    by (vm_compute; reflexivity).
  split; [exact E |].
  exact (prs_sorted Sample.forge Sample.api SampleCommits.abc SampleCommits.def
           [] _ _ E).
Defined.

Lemma prs_one_per_node_witness :
  exists j nodes raw,
    answers Sample.forge_twice []
      (search_request Sample.api SampleCommits.abc SampleCommits.def) j
    /\ nodes_of j = Return nodes
    /\ Forall2 (fun node pr => getitem node "number"
                               = Return (PullRequest.number pr)) nodes raw
    /\ Permutation raw
         [SampleCommits.pr5; SampleCommits.pr5; SampleCommits.pr12]
    /\ length [SampleCommits.pr5; SampleCommits.pr5; SampleCommits.pr12]
       = length nodes
    /\ (NoDup (map PullRequest.number
                 [SampleCommits.pr5; SampleCommits.pr5; SampleCommits.pr12])
        <-> NoDup (map PullRequest.number raw)).
Proof.
  apply (prs_one_per_node Sample.forge_twice Sample.api
           SampleCommits.abc SampleCommits.def []
           [search_request Sample.api SampleCommits.abc SampleCommits.def]).
  vm_compute; reflexivity.
Defined.

(** Both commits are [def], and the list returned is not empty. *)
Lemma same_commit_prs :
  GithubAPI.get_prs_merged_between_commits Sample.forge Sample.api
    SampleCommits.def SampleCommits.def []
  = (Return [SampleCommits.pr5; SampleCommits.pr12],
     [search_request Sample.api SampleCommits.def SampleCommits.def]).
Proof. vm_compute; reflexivity. Qed.

(** The tag list is empty, and the failure is an [IndexError]. *)
Lemma latest_tag_index_error :
  fst (GithubAPI.get_latest_tag Sample.forge_no_tags 5 Sample.api [])
  = Raise IndexError
  /\ is_GitHubError IndexError = false.
Proof. split; vm_compute; reflexivity. Qed.

Lemma latest_tag_of_no_tags_witness :
  answers Sample.forge_no_tags []
    (lookup Sample.api (GithubAPI.tags_url Sample.api)) (JList [])
  /\ GithubAPI.get_latest_tag Sample.forge_no_tags 5 Sample.api []
     = (Raise IndexError, [lookup Sample.api (GithubAPI.tags_url Sample.api)])
  /\ is_GitHubError IndexError = false.
Proof.
  assert (A : answers Sample.forge_no_tags []
                (lookup Sample.api (GithubAPI.tags_url Sample.api)) (JList [])).
  { eexists. split; [vm_compute; reflexivity |]. split; reflexivity. }
  split; [exact A |].
  exact (latest_tag_of_no_tags Sample.forge_no_tags Sample.api 5 [] A).
Defined.

(** The forge is down, and the error of the search carries the query and
    not the URL. *)
Lemma graphql_error_lacks_url :
  fst (GithubAPI.graphql_query Sample.forge_down Sample.api "Q" [])
  = Raise (GitHubError
             ("Query failed to run by returning code of 503" +++ nl +++ nl +++ "Q"))
  /\ contains "https://api.github.com/graphql"
       ("Query failed to run by returning code of 503" +++ nl +++ nl +++ "Q")
     = false.
Proof. split; vm_compute; reflexivity. Qed.

Lemma get_tag_dereferences_witness :
  (GithubAPI.get_tag Sample.forge 5 Sample.api "v2.0" []
   = (Return (Tag.Build_t "v2.0" SampleCommits.def),
      lookup Sample.api (GithubAPI.get_commit_url Sample.api (JStr "def"))
        :: rev (chain_requests Sample.api
                  (JStr (GithubAPI.tag_ref_url Sample.api "v2.0"))
                  [JStr "https://api.github.com/repos/OWNER/REPO/git/tags/t20"])
        ++ [])
   /\ getitem Sample.commit_def "sha" = Return (Commit.sha SampleCommits.def))
  /\ GithubAPI.get_tag Cases.forge_broken_tag 5 Sample.api "v2.0" []
     = (Raise (GithubAPI.query_failed 500
                 "https://api.github.com/repos/OWNER/REPO/git/tags/t20"),
        rev (chain_requests Sample.api
               (JStr (GithubAPI.tag_ref_url Sample.api "v2.0"))
               [JStr "https://api.github.com/repos/OWNER/REPO/git/tags/t20"])
          ++ []).
Proof.
  split.
  - apply (proj1 (get_tag_dereferences Sample.forge Sample.api 5 "v2.0" [])
             [JStr "https://api.github.com/repos/OWNER/REPO/git/tags/t20"]
             (Sample.ref_json "commit" "def"
                "https://api.github.com/repos/OWNER/REPO/git/commits/def")
             (JStr "def") Sample.commit_def SampleCommits.def).
    + exists (Sample.ref_json "tag" "t20"
                "https://api.github.com/repos/OWNER/REPO/git/tags/t20").
      split; [| split].
      * eexists. split; [vm_compute; reflexivity | split; reflexivity].
      * eexists. split; [reflexivity | split; reflexivity].
      * eexists. split; [vm_compute; reflexivity | split; reflexivity].
    + eexists. split; [reflexivity | split; reflexivity].
    + eexists. split; [vm_compute; reflexivity | split; reflexivity].
    + vm_compute; reflexivity.
    + simpl; lia.
  - apply (proj1 (proj2 (proj2
             (get_tag_dereferences Cases.forge_broken_tag Sample.api 5 "v2.0" [])))
             [JStr "https://api.github.com/repos/OWNER/REPO/git/tags/t20"]).
    + exists (Sample.ref_json "tag" "t20"
                "https://api.github.com/repos/OWNER/REPO/git/tags/t20").
      split; [| split].
      * eexists. split; [vm_compute; reflexivity | split; reflexivity].
      * eexists. eexists.
        split; [reflexivity |]. split; [reflexivity |]. split; [reflexivity |].
        left. split; reflexivity.
      * left. right. eexists. split; [vm_compute; reflexivity |].
        left. split; [simpl; discriminate | reflexivity].
    + simpl; lia.
Defined.

(** On a forge whose every reference leads to one more tag object the loop
    never gets out of the iterations it is given, and makes a lookup at each
    of them. *)
Lemma loop_on_tag_chain (fuel : nat) :
  forall (url j : json) (h : history),
    GithubAPI.not_yet_commit j = Return true ->
    fst (GithubAPI.get_tag_loop Sample.forge_tag_chain fuel Sample.api url j h)
    = OutOfFuel
    /\ length (snd (GithubAPI.get_tag_loop Sample.forge_tag_chain fuel
                      Sample.api url j h))
       = fuel + length h.
Proof.
  induction fuel as [| fuel IH]; intros url j h E.
  - now rewrite (loop_out_of_fuel _ _ _ _ _ E).
  - rewrite (loop_step _ _ _ _ _ _ E).
    change (settle url (Sample.forge_tag_chain h (lookup Sample.api url)))
      with (Return (Sample.ref_json "tag" "t20"
                      "https://api.github.com/repos/OWNER/REPO/git/tags/t20")).
    cbn [obind].
    change (next_url url _)
      with (Return (JStr "https://api.github.com/repos/OWNER/REPO/git/tags/t20")).
    cbn [obind].
    destruct (IH (JStr "https://api.github.com/repos/OWNER/REPO/git/tags/t20")
                 (Sample.ref_json "tag" "t20"
                    "https://api.github.com/repos/OWNER/REPO/git/tags/t20")
                 (lookup Sample.api url :: h) eq_refl) as (F & L).
    split; [exact F |]. rewrite L. simpl. lia.
Qed.

Lemma get_tag_on_tag_chain (fuel : nat) :
  fst (GithubAPI.get_tag Sample.forge_tag_chain fuel Sample.api "v1.0" [])
  = OutOfFuel
  /\ length (snd (GithubAPI.get_tag Sample.forge_tag_chain fuel Sample.api
                    "v1.0" []))
     = fuel.
Proof.
  unfold GithubAPI.get_tag.
  destruct (loop_on_tag_chain fuel
              (JStr (GithubAPI.tag_ref_url Sample.api "v1.0")) (JDict []) []
              eq_refl) as (F & L).
  destruct (GithubAPI.get_tag_loop _ _ _ _ _ _) as [o h'] eqn:R.
  simpl in F, L. subst o.
  rewrite (bind_out_of_fuel _ _ _ _ R). simpl.
  split; [reflexivity | lia].
Qed.

(** The loop of [get_tag] on that forge: no number of iterations ends it,
    and no number bounds its lookups. *)
Lemma dereference_loop_unbounded :
  ~ (exists fuel,
       fst (GithubAPI.get_tag Sample.forge_tag_chain fuel Sample.api "v1.0" [])
       <> OutOfFuel)
  /\ ~ (exists bound, forall fuel,
          length (snd (GithubAPI.get_tag Sample.forge_tag_chain fuel Sample.api
                         "v1.0" []))
          <= bound).
Proof.
  split.
  - intros (fuel & N). apply N. apply get_tag_on_tag_chain.
  - intros (bound & B). specialize (B (S bound)).
    destruct (get_tag_on_tag_chain (S bound)) as (_ & L). lia.
Qed.

(** The head of [master] has no author: no [Commit] is built from it. *)
Example last_commit_without_author :
  GithubAPI.get_last_commit Sample.forge_anonymous Sample.api "master" []
  = (Raise TypeError,
     [get_request Sample.api (GithubAPI.commits_url Sample.api)
        (Some [("sha", "master")])]).
Proof. vm_compute; reflexivity. Qed.

(** A tag that does not exist: the error carries the URL and the status. *)
Example missing_tag :
  fst (GithubAPI.get_tag Sample.forge 5 Sample.api "v3.0" [])
  = Raise (GitHubError
             ("Query failed to run by returning code of 404" +++ nl +++ nl
                +++ "https://api.github.com/repos/OWNER/REPO/git/refs/tags/v3.0")).
Proof. vm_compute; reflexivity. Qed.

(** The changelog between [v1.0] and [v2.0]. *)
Example changelog_v1_v2 :
  fst (generate_changelog Sample.forge 5 "OWNER" "REPO" (Some "v1.0")
         (Some "v2.0") false (Some "https://github.com")
         (Some "https://api.github.com") (Some "s3cr3t") [])
  = Return ("- `#5`_ Add feature (@bob)" +++ nl
              +++ "- `#12`_ Fix bug (@alice)" +++ nl
              +++ ".. _#5: https://github.com/OWNER/REPO/pull/5" +++ nl
              +++ ".. _#12: https://github.com/OWNER/REPO/pull/12").
Proof. vm_compute; reflexivity. Qed.

(** The author is null and the date is no ISO date: the failure is the
    [ValueError] of the parser, not the error of a subscription. *)
Lemma commit_date_error :
  lacks_author Sample.commit_undated = true
  /\ Commit.init_from_api Sample.commit_undated = Raise ValueError
  /\ is_lookup_error ValueError = false.
Proof. repeat split; vm_compute; reflexivity. Qed.

End OnSample.

(** * Further properties *)

(** ** The requests a call issues *)

Section IssuesFacts.
Context {A B : Type}.
Variable P : request -> Prop.

Lemma issues_ret (a : A) : issues P (ret a).
Proof. intros h. exists []. now split. Qed.

Lemma issues_raise (e : exn) : issues P (@raise A e).
Proof. intros h. exists []. now split. Qed.

Lemma issues_lift (o : outcome A) : issues P (lift o).
Proof. intros h. exists []. now split. Qed.

Lemma issues_bind (m : M A) (k : A -> M B) :
  issues P m -> (forall a, issues P (k a)) -> issues P (bind m k).
Proof.
  intros Hm Hk h. destruct (Hm h) as (r1 & E1 & F1). unfold bind.
  destruct (m h) as [[a | e | |] h1]; simpl in E1; subst h1;
    try (exists r1; now split).
  destruct (Hk a (rev r1 ++ h)) as (r2 & E2 & F2).
  exists (r1 ++ r2). split.
  - now rewrite E2, rev_app_distr, app_assoc.
  - apply Forall_app. now split.
Qed.

End IssuesFacts.

Section IssuesCalls.
Context {py : PyRuntime}.
Variable net : remote.
Variable self : GithubAPI.t.
Variable P : request -> Prop.
Hypothesis P_get :
  forall (U : Type) (F : Format U) (url : U)
         (params : option (list (string * string))),
    P (get_request self url params).

Lemma issues_api_query {U : Type} `{Format U} (url : U)
    (params : option (list (string * string))) :
  issues P (GithubAPI.api_query net self url params).
Proof.
  intros h. exists [get_request self url params]. rewrite api_query_run.
  split; [reflexivity |]. constructor; [apply P_get | constructor].
Qed.

Lemma issues_get_tag_loop (fuel : nat) :
  forall url j, issues P (GithubAPI.get_tag_loop net fuel self url j).
Proof.
  induction fuel as [| fuel IH]; intros url j; simpl;
    apply issues_bind; try apply issues_lift;
    intros [|]; try apply issues_ret; try apply issues_lift.
  apply issues_bind; [apply issues_api_query |]. intros j'.
  apply issues_bind; [apply issues_lift |]. intros o.
  apply issues_bind; [apply issues_lift |]. intros ty.
  destruct (eq_str ty "tag"); [| apply IH].
  apply issues_bind; [apply issues_lift |]. intros o'.
  apply issues_bind; [apply issues_lift |]. intros u. apply IH.
Qed.

Lemma issues_get_tag {N : Type} `{Format N} (fuel : nat) (name : N) :
  issues P (GithubAPI.get_tag net fuel self name).
Proof.
  unfold GithubAPI.get_tag.
  apply issues_bind; [apply issues_get_tag_loop |]. intros j.
  apply issues_bind; [apply issues_lift |]. intros o.
  apply issues_bind; [apply issues_lift |]. intros s.
  apply issues_bind; [apply issues_api_query |]. intros cj.
  apply issues_bind; [apply issues_lift |]. intros c. apply issues_ret.
Qed.

Lemma issues_get_last_commit (branch : string) :
  issues P (GithubAPI.get_last_commit net self branch).
Proof.
  unfold GithubAPI.get_last_commit.
  apply issues_bind; [apply issues_api_query |]. intros j.
  apply issues_bind; [apply issues_lift |]. intros c. apply issues_lift.
Qed.

Lemma issues_get_latest_tag (fuel : nat) :
  issues P (GithubAPI.get_latest_tag net fuel self).
Proof.
  unfold GithubAPI.get_latest_tag.
  apply issues_bind; [apply issues_api_query |]. intros j.
  apply issues_bind; [apply issues_lift |]. intros t0.
  apply issues_bind; [apply issues_lift |]. intros n. apply issues_get_tag.
Qed.

(** The two endpoints of [fetch_changes], as it resolves them. *)
Lemma issues_previous (fuel : nat) (previous_tag_name : option string) :
  issues P
    (match previous_tag_name with
     | None =>
         latest <- GithubAPI.get_latest_tag net fuel self ;;
         previous_tag <- GithubAPI.get_tag net fuel self latest ;;
         ret (Tag.commit previous_tag)
     | Some name =>
         previous_tag <- GithubAPI.get_tag net fuel self name ;;
         ret (Tag.commit previous_tag)
     end).
Proof.
  destruct previous_tag_name as [name |].
  - apply issues_bind; [apply issues_get_tag |]. intros t. apply issues_ret.
  - apply issues_bind; [apply issues_get_latest_tag |]. intros l.
    apply issues_bind; [apply issues_get_tag |]. intros t. apply issues_ret.
Qed.

Lemma issues_current (fuel : nat) (current_tag_name : option string)
    (branch : string) :
  issues P
    (match current_tag_name with
     | Some name =>
         current_tag <- GithubAPI.get_tag net fuel self name ;;
         ret (Tag.commit current_tag)
     | None => GithubAPI.get_last_commit net self branch
     end).
Proof.
  destruct current_tag_name as [name |]; [| apply issues_get_last_commit].
  apply issues_bind; [apply issues_get_tag |]. intros t. apply issues_ret.
Qed.

End IssuesCalls.

Section FetchChangesRequests.
Context {py : PyRuntime}.
Variable net : remote.
Variable self : GithubAPI.t.

Lemma issues_get_prs (P : request -> Prop) (first_commit last_commit : Commit.t) :
  P (search_request self first_commit last_commit) ->
  issues P (GithubAPI.get_prs_merged_between_commits net self
              first_commit last_commit).
Proof.
  intros HP h. exists [search_request self first_commit last_commit].
  rewrite get_prs_run. split; [reflexivity |]. now constructor.
Qed.

(** X11: every request that [fetch_changes] issues carries the
    [Authorization] header built from the client's token: the token scheme
    on the lookups, the bearer scheme on the search.  The requests made
    before the call are kept as they were. *)
Theorem fetch_changes_authorized (fuel : nat)
    (previous_tag_name current_tag_name : option string) (branch : string)
    (h : history) :
  exists rs,
    snd (fetch_changes net fuel self previous_tag_name current_tag_name branch h)
    = rev rs ++ h
    /\ Forall (authorized self) rs.
Proof.
  revert h. change (issues (authorized self)
                      (fetch_changes net fuel self previous_tag_name
                         current_tag_name branch)).
  unfold fetch_changes.
  apply issues_bind; [apply issues_previous; reflexivity |]. intros pc.
  apply issues_bind; [apply issues_current; reflexivity |]. intros cc.
  apply issues_get_prs. reflexivity.
Qed.

(** The requests of [fetch_changes]: lookups, then at most one search. *)
Lemma fetch_changes_gets_then_search (fuel : nat)
    (previous_tag_name current_tag_name : option string) (branch : string)
    (h : history) :
  exists gets,
    Forall (fun r => is_get r = true) gets
    /\ (snd (fetch_changes net fuel self previous_tag_name current_tag_name
               branch h) = rev gets ++ h
        \/ exists first_commit last_commit,
             snd (fetch_changes net fuel self previous_tag_name
                    current_tag_name branch h)
             = search_request self first_commit last_commit :: rev gets ++ h)
    /\ (forall prs,
          fst (fetch_changes net fuel self previous_tag_name current_tag_name
                 branch h) = Return prs ->
          exists first_commit last_commit,
            snd (fetch_changes net fuel self previous_tag_name
                   current_tag_name branch h)
            = search_request self first_commit last_commit :: rev gets ++ h).
Proof.
  unfold fetch_changes.
  destruct (issues_previous net self (fun r => is_get r = true)
              (fun _ _ _ _ => eq_refl) fuel previous_tag_name h)
    as (r1 & E1 & F1).
  match goal with
  | |- context [bind ?m ?k h] =>
      change (bind m k h)
        with (match m h with
              | (Return a, h') => k a h'
              | (Raise e, h') => (Raise e, h')
              | (OutOfFuel, h') => (OutOfFuel, h')
              | (Unmodelled, h') => (Unmodelled, h')
              end);
      destruct (m h) as [[pc | e | |] h1]
  end; simpl in E1; subst h1;
    try (exists r1; split; [exact F1 | split; [now left | discriminate]]).
  destruct (issues_current net self (fun r => is_get r = true)
              (fun _ _ _ _ => eq_refl) fuel current_tag_name branch
              (rev r1 ++ h)) as (r2 & E2 & F2).
  match goal with
  | |- context [bind ?m ?k (rev r1 ++ h)] =>
      change (bind m k (rev r1 ++ h))
        with (match m (rev r1 ++ h) with
              | (Return a, h') => k a h'
              | (Raise e, h') => (Raise e, h')
              | (OutOfFuel, h') => (OutOfFuel, h')
              | (Unmodelled, h') => (Unmodelled, h')
              end);
      destruct (m (rev r1 ++ h)) as [[cc | e | |] h2]
  end; simpl in E2; subst h2;
    try (exists (r1 ++ r2); split; [apply Forall_app; now split |];
         split; [left; now rewrite rev_app_distr, app_assoc | discriminate]).
  exists (r1 ++ r2). split; [apply Forall_app; now split |].
  rewrite get_prs_run. cbn [fst snd].
  split; [right | intros prs _]; exists pc, cc;
    now rewrite rev_app_distr, app_assoc.
Qed.


Lemma fetch_changes_bind (fuel : nat)
    (previous_tag_name current_tag_name : option string) (branch : string)
    (h : history) :
  fetch_changes net fuel self previous_tag_name current_tag_name branch h
  = bind (resolve_previous net fuel self previous_tag_name)
      (fun previous_commit =>
         bind (resolve_current net fuel self current_tag_name branch)
           (fun current_commit =>
              GithubAPI.get_prs_merged_between_commits net self
                previous_commit current_commit)) h.
Proof. reflexivity. Qed.

(** X12: [fetch_changes] issues lookups (GET) only, followed by at most
    one search (POST), which is then its last request, and when it returns
    a list the search was issued.  It resolves the previous endpoint, then
    the current one, with lookups only, and searches only after both are
    resolved: the search is the one between the two commits that the
    resolutions returned, issued after their lookups, and its outcome is
    the outcome of [fetch_changes].  When the resolution of an endpoint
    does not return a commit, [fetch_changes] ends there with that outcome
    and issues nothing more: neither the resolution of the other endpoint
    nor a search. *)
Theorem fetch_changes_searches_last (fuel : nat)
    (previous_tag_name current_tag_name : option string) (branch : string)
    (h : history) :
  (exists gets,
     Forall (fun r => is_get r = true) gets
     /\ (snd (fetch_changes net fuel self previous_tag_name current_tag_name
                branch h) = rev gets ++ h
         \/ exists first_commit last_commit,
              snd (fetch_changes net fuel self previous_tag_name
                     current_tag_name branch h)
              = search_request self first_commit last_commit :: rev gets ++ h)
     /\ (forall prs,
           fst (fetch_changes net fuel self previous_tag_name current_tag_name
                  branch h) = Return prs ->
           exists first_commit last_commit,
             snd (fetch_changes net fuel self previous_tag_name
                    current_tag_name branch h)
             = search_request self first_commit last_commit :: rev gets ++ h))
  /\ (exists r1,
        snd (resolve_previous net fuel self previous_tag_name h) = rev r1 ++ h
        /\ Forall (fun r => is_get r = true) r1
        /\ match fst (resolve_previous net fuel self previous_tag_name h) with
           | Return previous_commit =>
               exists r2,
                 snd (resolve_current net fuel self current_tag_name branch
                        (rev r1 ++ h)) = rev r2 ++ rev r1 ++ h
                 /\ Forall (fun r => is_get r = true) r2
                 /\ match fst (resolve_current net fuel self current_tag_name
                                 branch (rev r1 ++ h)) with
                    | Return current_commit =>
                        fetch_changes net fuel self previous_tag_name
                          current_tag_name branch h
                        = GithubAPI.get_prs_merged_between_commits net self
                            previous_commit current_commit
                            (rev r2 ++ rev r1 ++ h)
                        /\ snd (fetch_changes net fuel self previous_tag_name
                                  current_tag_name branch h)
                           = search_request self previous_commit current_commit
                               :: rev r2 ++ rev r1 ++ h
                    | Raise e =>
                        fetch_changes net fuel self previous_tag_name
                          current_tag_name branch h
                        = (Raise e, rev r2 ++ rev r1 ++ h)
                    | OutOfFuel =>
                        fetch_changes net fuel self previous_tag_name
                          current_tag_name branch h
                        = (OutOfFuel, rev r2 ++ rev r1 ++ h)
                    | Unmodelled =>
                        fetch_changes net fuel self previous_tag_name
                          current_tag_name branch h
                        = (Unmodelled, rev r2 ++ rev r1 ++ h)
                    end
           | Raise e =>
               fetch_changes net fuel self previous_tag_name current_tag_name
                 branch h = (Raise e, rev r1 ++ h)
           | OutOfFuel =>
               fetch_changes net fuel self previous_tag_name current_tag_name
                 branch h = (OutOfFuel, rev r1 ++ h)
           | Unmodelled =>
               fetch_changes net fuel self previous_tag_name current_tag_name
                 branch h = (Unmodelled, rev r1 ++ h)
           end).
Proof.
  split; [apply fetch_changes_gets_then_search |].
  rewrite !fetch_changes_bind.
  destruct (issues_previous net self (fun r => is_get r = true)
              (fun _ _ _ _ => eq_refl) fuel previous_tag_name h
            : exists rs,
                snd (resolve_previous net fuel self previous_tag_name h)
                = rev rs ++ h /\ Forall (fun r => is_get r = true) rs)
    as (r1 & E1 & F1).
  exists r1. unfold bind.
  destruct (resolve_previous net fuel self previous_tag_name h)
    as [[pc | e | |] h1]; cbn [fst snd] in *; subst h1;
    (split; [reflexivity |]); (split; [exact F1 |]); try reflexivity.
  destruct (issues_current net self (fun r => is_get r = true)
              (fun _ _ _ _ => eq_refl) fuel current_tag_name branch
              (rev r1 ++ h)
            : exists rs,
                snd (resolve_current net fuel self current_tag_name branch
                       (rev r1 ++ h))
                = rev rs ++ rev r1 ++ h
                /\ Forall (fun r => is_get r = true) rs)
    as (r2 & E2 & F2).
  exists r2.
  destruct (resolve_current net fuel self current_tag_name branch (rev r1 ++ h))
    as [[cc | e | |] h2]; cbn [fst snd] in *; subst h2;
    (split; [reflexivity |]); (split; [exact F2 |]); try reflexivity.
  split; [reflexivity |]. now rewrite get_prs_run.
Qed.

End FetchChangesRequests.

(** ** Edge cases of the lookups *)

Lemma repeat_shift {A : Type} (x : A) (n : nat) (l : list A) :
  repeat x n ++ x :: l = x :: repeat x n ++ l.
Proof. induction n as [| n IH]; simpl; [reflexivity | now rewrite IH]. Qed.

Section LookupEdges.
Context {py : PyRuntime}.
Variable net : remote.
Variable self : GithubAPI.t.

(** X1: when the forge answers the lookup of a tag's reference with a
    status other than 200 (the tag does not exist), [get_tag] raises
    [GitHubError] with that status and the URL of the reference, after this
    one lookup: no commit is looked up. *)
Theorem get_tag_missing_reference {N : Type} `{Format N} (fuel : nat)
    (name : N) (h : history) (resp : response) :
  net h (lookup self (GithubAPI.tag_ref_url self name)) = Some resp ->
  status_code resp <> 200%Z ->
  GithubAPI.get_tag net (S fuel) self name h
  = (Raise (GithubAPI.query_failed (status_code resp)
              (GithubAPI.tag_ref_url self name)),
     lookup self (GithubAPI.tag_ref_url self name) :: h).
Proof.
  intros E Ns. unfold GithubAPI.get_tag. apply bind_raise.
  rewrite (loop_step _ _ _ _ _ _ not_yet_commit_start).
  change (net h (lookup self (JStr (GithubAPI.tag_ref_url self name))))
    with (net h (lookup self (GithubAPI.tag_ref_url self name))).
  rewrite E. unfold settle. apply Z.eqb_neq in Ns. now rewrite Ns.
Qed.

(** X2: when the response to the lookup of a tag's reference has no
    ["object"] (the subscription raises [e]: [KeyError] on an object
    without the key, [TypeError] on a body that is no object), [get_tag]
    raises [e] after this one lookup. *)
Theorem get_tag_without_object {N : Type} `{Format N} (fuel : nat)
    (name : N) (h : history) (j : json) (e : exn) :
  answers net h (lookup self (GithubAPI.tag_ref_url self name)) j ->
  getitem j "object" = Raise e ->
  GithubAPI.get_tag net (S fuel) self name h
  = (Raise e, lookup self (GithubAPI.tag_ref_url self name) :: h).
Proof.
  intros A G. unfold GithubAPI.get_tag. apply bind_raise.
  rewrite (loop_step _ _ _ _ _ _ not_yet_commit_start).
  change (lookup self (JStr (GithubAPI.tag_ref_url self name)))
    with (lookup self (GithubAPI.tag_ref_url self name)).
  rewrite (settle_answers _ _ _ _ _ A). cbn [obind].
  unfold next_url. now rewrite G.
Qed.

(** The loop on an object that is neither a tag nor a commit. *)
Lemma loop_repeats (url j o ty : json) :
  (forall h, answers net h (lookup self url) j) ->
  getitem j "object" = Return o ->
  getitem o "type" = Return ty ->
  eq_str ty "tag" = false ->
  eq_str ty "commit" = false ->
  forall (fuel : nat) (j0 : json) (h : history),
    GithubAPI.not_yet_commit j0 = Return true ->
    GithubAPI.get_tag_loop net fuel self url j0 h
    = (OutOfFuel, repeat (lookup self url) fuel ++ h).
Proof.
  intros A O T Nt Nc.
  assert (Ej : GithubAPI.not_yet_commit j = Return true).
  { unfold GithubAPI.not_yet_commit. rewrite (getitem_in _ _ _ O).
    cbn [obind negb]. rewrite O. cbn [obind]. rewrite T. cbn [obind].
    now rewrite Nc. }
  assert (Eu : next_url url j = Return url).
  { unfold next_url. rewrite O. cbn [obind]. rewrite T. cbn [obind].
    now rewrite Nt. }
  induction fuel as [| fuel IH]; intros j0 h E.
  - now rewrite (loop_out_of_fuel _ _ _ _ _ E).
  - rewrite (loop_step _ _ _ _ _ _ E), (settle_answers _ _ _ _ _ (A h)).
    cbn [obind]. rewrite Eu. cbn [obind]. rewrite (IH j _ Ej).
    now rewrite repeat_shift.
Qed.

(** X3: when the reference of a tag names an object that is neither a tag
    nor a commit (a tree, a blob), [get_tag] looks up the same reference
    again at every iteration: after [fuel] iterations it has issued [fuel]
    identical lookups and has not ended. *)
Theorem get_tag_repeats_lookup {N : Type} `{Format N} (fuel : nat) (name : N)
    (h : history) (j o ty : json) :
  (forall h', answers net h' (lookup self (GithubAPI.tag_ref_url self name)) j) ->
  getitem j "object" = Return o ->
  getitem o "type" = Return ty ->
  eq_str ty "tag" = false ->
  eq_str ty "commit" = false ->
  GithubAPI.get_tag net fuel self name h
  = (OutOfFuel,
     repeat (lookup self (GithubAPI.tag_ref_url self name)) fuel ++ h).
Proof.
  intros A O T Nt Nc. unfold GithubAPI.get_tag. apply bind_out_of_fuel.
  exact (loop_repeats (JStr (GithubAPI.tag_ref_url self name)) j o ty
           A O T Nt Nc fuel (JDict []) h not_yet_commit_start).
Qed.

(** X4: [get_last_commit] issues one lookup of the commits of the branch
    (the branch as the [sha] parameter) and builds the [Commit] from the
    first entry of the list alone; on an empty list it raises
    [IndexError]. *)
Theorem get_last_commit_head (branch : string) (h : history) (l : list json) :
  answers net h
    (get_request self (GithubAPI.commits_url self) (Some [("sha", branch)]))
    (JList l) ->
  GithubAPI.get_last_commit net self branch h
  = (match l with
     | [] => Raise IndexError
     | c0 :: _ => Commit.init_from_api c0
     end,
     get_request self (GithubAPI.commits_url self) (Some [("sha", branch)])
       :: h).
Proof.
  intros A. destruct l as [| c0 l].
  - unfold GithubAPI.get_last_commit.
    now rewrite (bind_return _ _ _ _ _ (api_query_answers net self _ _ h _ A)).
  - exact (get_last_commit_run net self branch h _ c0 A eq_refl).
Qed.

(** X5: when the response to the comparison of two commits has no
    ["commits"], [get_commits_between] raises [GitHubError] with a message
    that names both commits by their [repr]. *)
Theorem get_commits_between_missing (first_commit last_commit : Commit.t)
    (h : history) (j : json) :
  answers net h
    (lookup self (GithubAPI.compare_commits_url self first_commit last_commit))
    j ->
  py_in "commits" j = Return false ->
  GithubAPI.get_commits_between net self first_commit last_commit h
  = (Raise (GitHubError
              ("Commits not found between " +++ Commit.repr first_commit
                 +++ " and " +++ Commit.repr last_commit +++ ".")),
     lookup self (GithubAPI.compare_commits_url self first_commit last_commit)
       :: h).
Proof.
  intros A I. unfold GithubAPI.get_commits_between.
  rewrite (bind_return _ _ _ _ _ (api_query_answers net self _ None h _ A)).
  unfold bind, lift. now rewrite I.
Qed.

(** X6: the list that [get_commits_between] returns holds one [Commit] per
    entry of the response's ["commits"], in the order of the entries, each
    built from its entry. *)
Theorem get_commits_between_commits (first_commit last_commit : Commit.t)
    (h h' : history) (cs : list Commit.t) :
  GithubAPI.get_commits_between net self first_commit last_commit h
  = (Return cs, h') ->
  exists j entries l,
    answers net h
      (lookup self
         (GithubAPI.compare_commits_url self first_commit last_commit)) j
    /\ getitem j "commits" = Return entries
    /\ py_iter entries = Return l
    /\ Forall2 (fun c commit => Commit.init_from_api c = Return commit) l cs
    /\ h' = lookup self
              (GithubAPI.compare_commits_url self first_commit last_commit)
              :: h.
Proof.
  unfold GithubAPI.get_commits_between. intros E.
  apply bind_inv_return in E. destruct E as (j & h1 & Q & E).
  rewrite api_query_run in Q. injection Q as S Hh. subst h1.
  apply settle_inv_return in S.
  apply bind_inv_return in E. destruct E as (has & h2 & I & E).
  apply lift_inv_return in I. destruct I as (I & ->).
  destruct has; [| discriminate]. cbn [negb] in E.
  apply bind_inv_return in E. destruct E as (entries & h3 & G & E).
  apply lift_inv_return in G. destruct G as (G & ->).
  apply bind_inv_return in E. destruct E as (l & h4 & T & E).
  apply lift_inv_return in T. destruct T as (T & ->).
  apply lift_inv_return in E. destruct E as (O & ->).
  exists j, entries, l. repeat split; auto. exact (omap_each _ _ _ O).
Qed.

End LookupEdges.

(** ** Edge cases of the search *)

Lemma nodes_of_raise (j : json) (e : exn) :
  nodes_of j = Raise e -> is_GitHubError e = false.
Proof.
  unfold nodes_of. intros E.
  destruct (getitem j "data") as [d | e1 | |] eqn:G1; try discriminate;
    cbn [obind] in E;
    [| inversion E; subst; now destruct (getitem_raise _ _ _ G1)].
  destruct (getitem d "search") as [s | e2 | |] eqn:G2; try discriminate;
    cbn [obind] in E;
    [| inversion E; subst; now destruct (getitem_raise _ _ _ G2)].
  destruct s; simpl in E; try (now inversion E).
  destruct (match dict_get "nodes" d0 with Some x => x | None => JList [] end);
    simpl in E; try discriminate; now inversion E.
Qed.

(** A list comprehension over the same elements in another order succeeds
    as well, with the same results in that order. *)
Lemma omap_perm {A B : Type} (f : A -> outcome B) (l1 l2 : list A) :
  Permutation l1 l2 ->
  forall o1, omap f l1 = Return o1 ->
  exists o2, omap f l2 = Return o2 /\ Permutation o1 o2.
Proof.
  induction 1 as [| x l1 l2 P IH | x y l | l1 l2 l3 P1 IH1 P2 IH2];
    intros o1 E.
  - exists o1. now split.
  - simpl in E. destruct (f x) as [b | | |] eqn:Fx; try discriminate.
    cbn [obind] in E.
    destruct (omap f l1) as [o | | |] eqn:El; try discriminate.
    inversion E; subst. destruct (IH o eq_refl) as (o2 & E2 & P2).
    exists (b :: o2). simpl. rewrite Fx, E2. split; [reflexivity |].
    now apply perm_skip.
  - simpl in E. destruct (f y) as [b | | |] eqn:Fy; try discriminate.
    cbn [obind] in E. destruct (f x) as [a | | |] eqn:Fx; try discriminate.
    cbn [obind] in E. destruct (omap f l) as [o | | |] eqn:El; try discriminate.
    inversion E; subst. exists (a :: b :: o). simpl. rewrite Fx, Fy, El.
    split; [reflexivity | apply perm_swap].
  - destruct (IH1 o1 E) as (o2 & E2 & Q1).
    destruct (IH2 o2 E2) as (o3 & E3 & Q2).
    exists o3. split; [exact E3 | now transitivity o2].
Qed.

Lemma decorate_ints_inv (prs : list PullRequest.t) (l : list (Z * PullRequest.t)) :
  decorate prs = Some l ->
  Forall (fun pr => exists z, PullRequest.number pr = JInt z) prs.
Proof.
  revert l. induction prs as [| pr prs IH]; simpl; intros l E; [constructor |].
  unfold int_key in E. destruct (PullRequest.number pr) eqn:En; try discriminate.
  destruct (decorate prs) as [l' |]; [| discriminate].
  constructor; [now exists z | now apply (IH l')].
Qed.

(** Two lists in ascending order of number with the same entries and no
    number twice are one list. *)
Lemma sorted_perm_unique (l1 : list PullRequest.t) :
  forall l2,
    StronglySorted number_le l1 -> StronglySorted number_le l2 ->
    Permutation l1 l2 -> NoDup (map PullRequest.number l1) ->
    l1 = l2.
Proof.
  induction l1 as [| x l1 IH]; intros l2 S1 S2 P D.
  - now apply Permutation_nil in P.
  - destruct l2 as [| y l2];
      [apply Permutation_sym, Permutation_nil in P; discriminate |].
    inversion S1 as [| ? ? S1' H1]; subst. inversion S2 as [| ? ? S2' H2]; subst.
    inversion D as [| ? ? Nx D']; subst.
    rewrite Forall_forall in H1, H2.
    assert (E : x = y).
    { assert (Ix : In x (y :: l2)) by (eapply Permutation_in; [exact P | now left]).
      assert (Iy : In y (x :: l1))
        by (eapply Permutation_in; [exact (Permutation_sym P) | now left]).
      destruct Ix as [-> | Ix]; [reflexivity |].
      destruct Iy as [-> | Iy]; [reflexivity |].
      pose proof (H1 y Iy) as Lxy. pose proof (H2 x Ix) as Lyx.
      unfold number_le in Lxy, Lyx.
      destruct (PullRequest.number x) as [| | zx | | |] eqn:Ex; try contradiction.
      destruct (PullRequest.number y) as [| | zy | | |] eqn:Ey; try contradiction.
      exfalso. apply Nx. replace zx with zy by lia. rewrite <- Ey.
      now apply in_map. }
    subst y. f_equal. apply IH; auto.
    now apply Permutation_cons_inv in P.
Qed.

Section SearchEdges.
Context {py : PyRuntime}.

(** X7: when the [search] object of a response has no ["nodes"], the list
    returned is empty. *)
Theorem search_without_nodes (net : remote) (self : GithubAPI.t)
    (first_commit last_commit : Commit.t) (h : history)
    (j data : json) (search : list (string * json)) :
  answers net h (search_request self first_commit last_commit) j ->
  getitem j "data" = Return data ->
  getitem data "search" = Return (JDict search) ->
  dict_get "nodes" search = None ->
  GithubAPI.get_prs_merged_between_commits net self first_commit last_commit h
  = (Return [], search_request self first_commit last_commit :: h).
Proof.
  intros A D S N.
  rewrite get_prs_run, (settle_answers _ _ _ _ _ A). cbn [obind].
  unfold decode_prs, nodes_of. rewrite D. cbn [obind]. rewrite S. cbn [obind].
  simpl. now rewrite N.
Qed.

(** X8: when the response to the search is a 200 that does not hold the
    nodes where they are read (no ["data"], a null ["data"], a ["search"]
    that is no object, nodes that cannot be iterated), the call raises the
    exception of that read, which is never [GitHubError]. *)
Theorem search_malformed (net : remote) (self : GithubAPI.t)
    (first_commit last_commit : Commit.t) (h : history) (j : json) (e : exn) :
  answers net h (search_request self first_commit last_commit) j ->
  nodes_of j = Raise e ->
  GithubAPI.get_prs_merged_between_commits net self first_commit last_commit h
  = (Raise e, search_request self first_commit last_commit :: h)
  /\ is_GitHubError e = false.
Proof.
  intros A N. split; [| exact (nodes_of_raise _ _ N)].
  rewrite get_prs_run, (settle_answers _ _ _ _ _ A). cbn [obind].
  unfold decode_prs. now rewrite N.
Qed.

(** X9: the list returned does not depend on the order in which the forge
    reports the nodes: when a search returns pull requests of distinct
    numbers, a search whose response holds the same nodes in any other
    order returns the same list. *)
Theorem search_order_independent (net1 net2 : remote) (self1 self2 : GithubAPI.t)
    (a1 b1 a2 b2 : Commit.t) (h1 h1' h2 : history) (j2 : json)
    (nodes1 nodes2 : list json) (j1 : json) (prs : list PullRequest.t) :
  answers net1 h1 (search_request self1 a1 b1) j1 ->
  nodes_of j1 = Return nodes1 ->
  GithubAPI.get_prs_merged_between_commits net1 self1 a1 b1 h1
  = (Return prs, h1') ->
  NoDup (map PullRequest.number prs) ->
  answers net2 h2 (search_request self2 a2 b2) j2 ->
  nodes_of j2 = Return nodes2 ->
  Permutation nodes1 nodes2 ->
  GithubAPI.get_prs_merged_between_commits net2 self2 a2 b2 h2
  = (Return prs, search_request self2 a2 b2 :: h2).
Proof.
  intros A1 N1 R1 D A2 N2 P.
  rewrite get_prs_run, (settle_answers _ _ _ _ _ A1) in R1.
  cbn [obind] in R1. injection R1 as R1 _.
  unfold decode_prs in R1. rewrite N1 in R1. cbn [obind] in R1.
  apply obind_inv_return in R1. destruct R1 as (raw1 & O1 & S1).
  destruct (omap_perm _ _ _ P raw1 O1) as (raw2 & O2 & Pr).
  rewrite get_prs_run, (settle_answers _ _ _ _ _ A2). cbn [obind].
  unfold decode_prs. rewrite N2. cbn [obind]. rewrite O2. cbn [obind].
  f_equal.
  assert (I2 : exists l2, decorate raw2 = Some l2).
  { apply decorate_ints. eapply Permutation_Forall; [exact Pr |].
    unfold sorted_by_number in S1.
    destruct (decorate raw1) as [l1 |] eqn:D1; [| discriminate].
    exact (decorate_ints_inv _ _ D1). }
  destruct I2 as (l2 & D2).
  assert (S2 : sorted_by_number raw2 = Return (map snd (stable_sort l2)))
    by (unfold sorted_by_number; now rewrite D2).
  rewrite S2. f_equal. symmetry.
  apply sorted_perm_unique.
  - exact (sorted_by_number_sorted _ _ S1).
  - exact (sorted_by_number_sorted _ _ S2).
  - transitivity raw1; [exact (Permutation_sym (sorted_by_number_perm _ _ S1)) |].
    transitivity raw2; [exact Pr | exact (sorted_by_number_perm _ _ S2)].
  - exact D.
Qed.

(** X10: [parse_datetime_string] reads a timestamp that ends in [Z] as it
    reads the same timestamp ending in [+00:00], and raises
    [AttributeError] on a value that is no [str]. *)
Theorem parse_datetime_string_zulu :
  (forall s : string,
     parse_datetime_string (JStr (s +++ "Z"))
     = parse_datetime_string (JStr (s +++ "+00:00")))
  /\ (forall v : json,
        (forall s, v <> JStr s) -> parse_datetime_string v = Raise AttributeError).
Proof.
  split.
  - intros s. unfold parse_datetime_string.
    replace (replace_char "Z" "+00:00" (s +++ "Z"))
      with (replace_char "Z" "+00:00" (s +++ "+00:00")); [reflexivity |].
    induction s as [| c s IH]; simpl; [reflexivity |].
    rewrite IH. reflexivity.
  - intros v N. destruct v; try reflexivity. now contradiction (N s).
Qed.

End SearchEdges.

(** ** The changelog text *)

Lemma contains_char_cons (c d : ascii) (s : string) :
  contains (String c "") (String d s)
  = Ascii.eqb c d || contains (String c "") s.
Proof.
  rewrite contains_unfold. f_equal. simpl.
  destruct (ascii_dec c d) as [-> | N].
  - rewrite Ascii.eqb_refl. now destruct s.
  - symmetry. now apply Ascii.eqb_neq.
Qed.

Lemma contains_char_append (c : ascii) (a b : string) :
  contains (String c "") (a +++ b)
  = contains (String c "") a || contains (String c "") b.
Proof.
  induction a as [| d a IH].
  - simpl. now destruct b.
  - change (String d a +++ b) with (String d (a +++ b)).
    now rewrite !contains_char_cons, IH, orb_assoc.
Qed.

Section ChangelogText.
Context {py : PyRuntime}.

(** X13: [generate_changelog] runs [fetch_changes] on the branch
    [master] with the client it builds from its arguments; when that
    returns pull requests the text is their bullet lines followed by their
    link lines, joined by the separator, and when it raises, the exception
    is raised on and no text is produced. *)
Theorem generate_changelog_output (net : remote) (fuel : nat)
    (owner repo : string) (previous_tag current_tag : option string)
    (single_line : bool)
    (github_base_url github_api_url github_token : option string)
    (h : history) :
  generate_changelog net fuel owner repo previous_tag current_tag single_line
    github_base_url github_api_url github_token h
  = match fetch_changes net fuel
            {| GithubAPI.config :=
                 {| GitHubConfig.api_url := py_str github_api_url;
                    GitHubConfig.authorization :=
                      {| Authorization.token := py_str github_token |} |};
               GithubAPI.owner := owner; GithubAPI.repo := repo |}
            previous_tag current_tag "master" h with
    | (Return prs, h') =>
        (Return (String.concat (if single_line then "\n" else nl)
                   (map bullet prs
                      ++ map (link github_base_url owner repo) prs)), h')
    | (Raise e, h') => (Raise e, h')
    | (OutOfFuel, h') => (OutOfFuel, h')
    | (Unmodelled, h') => (Unmodelled, h')
    end.
Proof.
  unfold generate_changelog, bind.
  destruct (fetch_changes _ _ _ _ _ _ _) as [[prs | e | |] h']; try reflexivity.
  unfold ret, join_lines. now rewrite format_changes_eq.
Qed.

(** X14: joined on a single line, lines that hold no line feed give a
    text that holds no line feed: the separator is a backslash and an
    [n]. *)
Theorem single_line_has_no_line_feed (lines : list string) :
  Forall (fun line => contains nl line = false) lines ->
  contains nl (join_lines true lines) = false.
Proof.
  unfold join_lines, nl.
  induction 1 as [| line lines Hl Hls IH]; [reflexivity |].
  destruct lines as [| line' lines]; [exact Hl |].
  change (String.concat "\n" (line :: line' :: lines))
    with (line +++ "\n" +++ String.concat "\n" (line' :: lines)).
  rewrite !contains_char_append, Hl, IH. reflexivity.
Qed.

End ChangelogText.

Section LatestTag.
Context {py : PyRuntime}.
Variable net : remote.
Variable self : GithubAPI.t.

(** X15: [get_latest_tag] looks up the tag list and resolves the name of
    its first entry, as the forge ordered it; the other entries are not
    read. *)
Theorem get_latest_tag_first (fuel : nat) (h : history)
    (t0 name : json) (others : list json) :
  answers net h (lookup self (GithubAPI.tags_url self)) (JList (t0 :: others)) ->
  getitem t0 "name" = Return name ->
  GithubAPI.get_latest_tag net fuel self h
  = GithubAPI.get_tag net fuel self name
      (lookup self (GithubAPI.tags_url self) :: h).
Proof.
  intros A G. unfold GithubAPI.get_latest_tag.
  rewrite (bind_return _ _ _ _ _ (api_query_answers net self _ None h _ A)).
  unfold bind at 1, lift at 1. cbn [getitem0].
  unfold bind at 1, lift at 1. now rewrite G.
Qed.

End LatestTag.

(** ** The further properties on the sample forges *)

Section OnCases.
#[local] Existing Instance GithubClock.runtime.

Lemma get_tag_missing_reference_witness :
  GithubAPI.get_tag Sample.forge 5 Sample.api "v3.0" []
  = (Raise (GithubAPI.query_failed 404
              (GithubAPI.tag_ref_url Sample.api "v3.0")),
     [lookup Sample.api (GithubAPI.tag_ref_url Sample.api "v3.0")]).
Proof.
  apply (get_tag_missing_reference Sample.forge Sample.api 4 "v3.0" []
           {| status_code := 404;
              body := Some (JDict [("message", JStr "Not Found")]) |}).
  - vm_compute; reflexivity.
  - simpl; discriminate.
Defined.

Lemma get_tag_without_object_witness :
  GithubAPI.get_tag Cases.forge_blank 5 Sample.api "v1.0" []
  = (Raise (KeyError (JStr "object")),
     [lookup Sample.api (GithubAPI.tag_ref_url Sample.api "v1.0")]).
Proof.
  apply (get_tag_without_object Cases.forge_blank Sample.api 4 "v1.0" []
           (JDict [])).
  - eexists. split; [reflexivity | split; reflexivity].
  - reflexivity.
Defined.

Lemma get_tag_repeats_lookup_witness :
  GithubAPI.get_tag Cases.forge_tree 3 Sample.api "v1.0" []
  = (OutOfFuel,
     repeat (lookup Sample.api (GithubAPI.tag_ref_url Sample.api "v1.0")) 3
       ++ []).
Proof.
  apply (get_tag_repeats_lookup Cases.forge_tree Sample.api 3 "v1.0" []
           Cases.tree_json
           (JDict [("type", JStr "tree"); ("sha", JStr "7ree");
                   ("url",
                    JStr "https://api.github.com/repos/OWNER/REPO/git/trees/7ree")])
           (JStr "tree")).
  - intros h'. eexists. split; [reflexivity | split; reflexivity].
  - reflexivity.
  - reflexivity.
  - reflexivity.
  - reflexivity.
Defined.

Lemma get_last_commit_head_witness :
  GithubAPI.get_last_commit Sample.forge Sample.api "master" []
  = (Return SampleCommits.fed,
     [get_request Sample.api (GithubAPI.commits_url Sample.api)
        (Some [("sha", "master")])]).
Proof.
  assert (A : answers Sample.forge []
                (get_request Sample.api (GithubAPI.commits_url Sample.api)
                   (Some [("sha", "master")]))
                (JList [Sample.commit_fed; Sample.commit_def; Sample.commit_abc])).
  { eexists. split; [vm_compute; reflexivity | split; reflexivity]. }
  exact (get_last_commit_head Sample.forge Sample.api "master" []
           [Sample.commit_fed; Sample.commit_def; Sample.commit_abc] A).
Defined.

Lemma get_commits_between_missing_witness :
  GithubAPI.get_commits_between Cases.forge_blank Sample.api
    SampleCommits.abc SampleCommits.def []
  = (Raise (GitHubError
              ("Commits not found between " +++ Commit.repr SampleCommits.abc
                 +++ " and " +++ Commit.repr SampleCommits.def +++ ".")),
     [lookup Sample.api
        (GithubAPI.compare_commits_url Sample.api
           SampleCommits.abc SampleCommits.def)]).
Proof.
  apply (get_commits_between_missing Cases.forge_blank Sample.api
           SampleCommits.abc SampleCommits.def [] (JDict [])).
  - eexists. split; [reflexivity | split; reflexivity].
  - reflexivity.
Defined.

Lemma get_commits_between_commits_witness :
  exists j entries l,
    answers Cases.forge_compare []
      (lookup Sample.api
         (GithubAPI.compare_commits_url Sample.api
            SampleCommits.abc SampleCommits.fed)) j
    /\ getitem j "commits" = Return entries
    /\ py_iter entries = Return l
    /\ Forall2 (fun c commit => Commit.init_from_api c = Return commit) l
         [SampleCommits.def; SampleCommits.fed]
    /\ [lookup Sample.api
          (GithubAPI.compare_commits_url Sample.api
             SampleCommits.abc SampleCommits.fed)]
       = lookup Sample.api
           (GithubAPI.compare_commits_url Sample.api
              SampleCommits.abc SampleCommits.fed) :: [].
Proof.
  apply (get_commits_between_commits Cases.forge_compare Sample.api
           SampleCommits.abc SampleCommits.fed []).
  vm_compute; reflexivity.
Defined.

Lemma search_without_nodes_witness :
  GithubAPI.get_prs_merged_between_commits Cases.forge_no_nodes Sample.api
    SampleCommits.abc SampleCommits.def []
  = (Return [],
     [search_request Sample.api SampleCommits.abc SampleCommits.def]).
Proof.
  apply (search_without_nodes Cases.forge_no_nodes Sample.api
           SampleCommits.abc SampleCommits.def [] Cases.no_nodes_json
           (JDict [("search", JDict [("issueCount", JInt 0)])])
           [("issueCount", JInt 0)]).
  - eexists. split; [reflexivity | split; reflexivity].
  - reflexivity.
  - reflexivity.
  - reflexivity.
Defined.

Lemma search_malformed_witness :
  GithubAPI.get_prs_merged_between_commits Cases.forge_blank Sample.api
    SampleCommits.abc SampleCommits.def []
  = (Raise (KeyError (JStr "data")),
     [search_request Sample.api SampleCommits.abc SampleCommits.def])
  /\ is_GitHubError (KeyError (JStr "data")) = false.
Proof.
  apply (search_malformed Cases.forge_blank Sample.api
           SampleCommits.abc SampleCommits.def [] (JDict [])).
  - eexists. split; [reflexivity | split; reflexivity].
  - reflexivity.
Defined.

Lemma search_order_independent_witness :
  GithubAPI.get_prs_merged_between_commits Cases.forge_reordered Sample.api
    SampleCommits.abc SampleCommits.def []
  = (Return [SampleCommits.pr5; SampleCommits.pr12],
     [search_request Sample.api SampleCommits.abc SampleCommits.def]).
Proof.
  apply (search_order_independent Sample.forge Cases.forge_reordered
           Sample.api Sample.api
           SampleCommits.abc SampleCommits.def
           SampleCommits.abc SampleCommits.def
           [] [search_request Sample.api SampleCommits.abc SampleCommits.def] []
           (Sample.search_json
              [Sample.node 5 "Add feature" "bob"; Sample.node 12 "Fix bug" "alice"])
           Sample.pulls
           [Sample.node 5 "Add feature" "bob"; Sample.node 12 "Fix bug" "alice"]
           (Sample.search_json Sample.pulls)).
  - eexists. split; [vm_compute; reflexivity | split; reflexivity].
  - reflexivity.
  - vm_compute; reflexivity.
  - repeat constructor; simpl; intuition discriminate.
  - eexists. split; [vm_compute; reflexivity | split; reflexivity].
  - reflexivity.
  - apply perm_swap.
Defined.

Lemma single_line_has_no_line_feed_witness :
  contains nl
    (join_lines true
       ["- `#5`_ Add feature (@bob)";
        ".. _#5: https://github.com/OWNER/REPO/pull/5"])
  = false.
Proof.
  apply single_line_has_no_line_feed.
  repeat constructor.
Defined.

Lemma get_latest_tag_first_witness :
  GithubAPI.get_latest_tag Sample.forge 5 Sample.api []
  = GithubAPI.get_tag Sample.forge 5 Sample.api (JStr "v2.0")
      [lookup Sample.api (GithubAPI.tags_url Sample.api)].
Proof.
  apply (get_latest_tag_first Sample.forge Sample.api 5 []
           (JDict [("name", JStr "v2.0")]) (JStr "v2.0")
           [JDict [("name", JStr "v1.0")]]).
  - eexists. split; [vm_compute; reflexivity | split; reflexivity].
  - reflexivity.
Defined.

End OnCases.

(** ** Failing lookups on the sample forges *)

Section OnFailures.
#[local] Existing Instance GithubClock.runtime.

(** The forge is down: the loop of [get_tag] ends at its first lookup. *)
Example loop_on_forge_down :
  GithubAPI.get_tag_loop Sample.forge_down 5 Sample.api
    (JStr (GithubAPI.tag_ref_url Sample.api "v1.0")) (JDict []) []
  = (Raise (GithubAPI.query_failed 503
              (GithubAPI.tag_ref_url Sample.api "v1.0")),
     [lookup Sample.api (GithubAPI.tag_ref_url Sample.api "v1.0")]).
Proof. vm_compute; reflexivity. Qed.

(** The tag object cannot be looked up: the loop ends at its second
    lookup, whatever the iterations left. *)
Example loop_on_broken_tag :
  GithubAPI.get_tag_loop Cases.forge_broken_tag 5 Sample.api
    (JStr (GithubAPI.tag_ref_url Sample.api "v2.0")) (JDict []) []
  = (Raise (GithubAPI.query_failed 500
              "https://api.github.com/repos/OWNER/REPO/git/tags/t20"),
     [lookup Sample.api "https://api.github.com/repos/OWNER/REPO/git/tags/t20";
      lookup Sample.api (GithubAPI.tag_ref_url Sample.api "v2.0")]).
Proof. vm_compute; reflexivity. Qed.

(** The latest tag resolves and the head of [master] does not: no search
    is issued. *)
Example fetch_changes_without_head :
  fetch_changes Sample.forge_anonymous 5 Sample.api (Some "v1.0") None
    "master" []
  = (Raise TypeError,
     [get_request Sample.api (GithubAPI.commits_url Sample.api)
        (Some [("sha", "master")]);
      lookup Sample.api "https://api.github.com/repos/OWNER/REPO/commits/abc";
      lookup Sample.api (GithubAPI.tag_ref_url Sample.api "v1.0")]).
Proof. vm_compute; reflexivity. Qed.

End OnFailures.
